(** * Session bootstrap hook: a shallow embedding of
      [src/hooks/bundled/session-bootstrap/handler.ts]

    The handler is asynchronous JavaScript that reads a few files, formats
    a text block and stores it into the event's shared context object.
    The embedding keeps that shape:

    - a JavaScript string is the list of its UTF-16 code units;
    - arrays are lists, [push] appends, [slice], [sort], [reverse] and
      [join] are written out with the meaning ECMAScript gives them;
    - objects live in a heap ([gmap] from locations to property maps), so
      that the aliasing between [event.context] and the local [context]
      is visible;
    - the body runs in a state-and-exception monad over a [World] made of
      the heap, the emitted log records and the trace of file-system
      calls; [try]/[catch] is a combinator of that monad;
    - everything imported from outside the file (node's [fs] and [path],
      the workspace resolvers) is a field of an environment record and
      may return or throw. *)

From Stdlib Require Import ZArith NArith List Ascii String Permutation Sorted Lia.
From stdpp Require Import gmap strings list fin_maps sorting.

Open Scope list_scope.

(** ** JavaScript strings *)

Module JsString.

(** A string value: its sequence of UTF-16 code units. *)
Definition jsstring : Type := list N.

(** An ASCII literal of the source, as code units. *)
Definition lit (s : string) : jsstring :=
  map N_of_ascii (list_ascii_of_string s).

(** [x < y] on strings, the comparison of code units from the left
    that [Array.prototype.sort] uses when no comparator is given. *)
Fixpoint str_ltb (x y : jsstring) : bool :=
  match x, y with
  | _, [] => false
  | [], _ :: _ => true
  | a :: x', b :: y' =>
      if (a <? b)%N then true
      else if (b <? a)%N then false
      else str_ltb x' y'
  end.

(** [s.startsWith(p)]. *)
Fixpoint startsWith (s p : jsstring) {struct p} : bool :=
  match p, s with
  | [], _ => true
  | _ :: _, [] => false
  | b :: p', a :: s' => (a =? b)%N && startsWith s' p'
  end.

(** [s.endsWith(p)]: the [length p] code units that end [s] are [p]. *)
Definition endsWith (s p : jsstring) : bool :=
  (length p <=? length s)%nat
  && startsWith (skipn (length s - length p) s) p.

(** [s.slice(0, n)] for a literal [n >= 0]. *)
Definition slice0 (s : jsstring) (n : nat) : jsstring := firstn n s.

(** [s.split(sep)[0]] for a one-unit separator: what comes before the
    first occurrence of [sep], the whole string when there is none. *)
Fixpoint split_head (sep : N) (s : jsstring) : jsstring :=
  match s with
  | [] => []
  | c :: s' => if (c =? sep)%N then [] else c :: split_head sep s'
  end.

(** [parts.join(sep)]. *)
Fixpoint join (sep : jsstring) (parts : list jsstring) : jsstring :=
  match parts with
  | [] => []
  | [p] => p
  | p :: rest => p ++ sep ++ join sep rest
  end.

(** [hay.includes(needle)]. *)
Fixpoint includes (hay needle : jsstring) : bool :=
  startsWith hay needle
  || match hay with
     | [] => false
     | _ :: hay' => includes hay' needle
     end.

End JsString.
Import JsString.

(** ** Arrays *)

Section Arrays.
Context {A : Type}.

(** [xs.slice(0, count)] for an integral [count]: a negative end index
    counts from the end of the array. *)
Definition array_slice0 (xs : list A) (count : Z) : list A :=
  if (count <? 0)%Z
  then firstn (Z.to_nat (Z.max (Z.of_nat (length xs) + count) 0)) xs
  else firstn (Z.to_nat count) xs.

(** [xs.push(a, b, ...)] *)
Definition push (xs items : list A) : list A := xs ++ items.
End Arrays.

(** [files.sort()] with the default comparison.  Which algorithm the
    engine runs is not fixed by the language; for strings the result is
    (see [sort_unique] below), so insertion sort stands for it. *)
Fixpoint sort_insert (x : jsstring) (l : list jsstring) : list jsstring :=
  match l with
  | [] => [x]
  | y :: l' => if str_ltb x y then x :: y :: l' else y :: sort_insert x l'
  end.

Definition array_sort (l : list jsstring) : list jsstring :=
  fold_right sort_insert [] l.

(** ** The file-name filter of [getRecentMemories] *)

(** The atoms of the regular expression [/^\d{4}-\d{2}-\d{2}/]. *)
Inductive atom := Digit | Dash.

Definition is_digit (c : N) : bool := (48 <=? c)%N && (c <=? 57)%N.

Definition atom_matches (a : atom) (c : N) : bool :=
  match a with
  | Digit => is_digit c
  | Dash => (c =? 45)%N
  end.

(** Matching a sequence of atoms anchored at the start of the string. *)
Fixpoint match_anchored (re : list atom) (s : jsstring) : bool :=
  match re, s with
  | [], _ => true
  | _ :: _, [] => false
  | a :: re', c :: s' => atom_matches a c && match_anchored re' s'
  end.

Definition date_regex : list atom :=
  [Digit; Digit; Digit; Digit; Dash; Digit; Digit; Dash; Digit; Digit].

(** [(f) => f.endsWith(".md") && f.match(/^\d{4}-\d{2}-\d{2}/)] *)
Definition is_memory_file (f : jsstring) : bool :=
  endsWith f (lit ".md") && match_anchored date_regex f.

(** [files.filter(...).sort().reverse().slice(0, count)] *)
Definition select_recent (files : list jsstring) (count : Z) : list jsstring :=
  array_slice0 (rev (array_sort (List.filter is_memory_file files))) count.

(** ** Values, objects and the heap *)

Definition loc : Type := positive.

(** The JavaScript values the handler meets.  Numbers are the integers
    it logs; an object is a reference into the heap. *)
Inductive Value :=
  | VUndef
  | VNull
  | VBool (b : bool)
  | VNum (n : Z)
  | VStr (s : jsstring)
  | VRef (l : loc).

#[global] Instance Value_eq_dec : EqDecision Value.
Proof. solve_decision. Defined.

(** [Boolean(v)] *)
Definition truthy (v : Value) : bool :=
  match v with
  | VUndef | VNull => false
  | VBool b => b
  | VNum n => negb (n =? 0)%Z
  | VStr s => negb (Nat.eqb (length s) 0)
  | VRef _ => true
  end.

(** [a !== b] *)
Definition strict_neq (a b : Value) : bool := negb (bool_decide (a = b)).

(** ** The world the handler runs in *)

Inductive Level := Debug | Info | Error.

Record LogRecord := {
  log_level : Level;
  log_message : jsstring;
  log_meta : list (string * Value)
}.

Inductive FsCall :=
  | Readdir (dir : jsstring)
  | ReadFile (file : jsstring).

Record World := {
  heap : gmap loc (gmap string Value);
  logs : list LogRecord;
  fs_calls : list FsCall
}.

(** A call returns or throws; the thrown value is kept as its string
    form, [String(err)], the only thing the handler does with it. *)
Inductive outcome (A : Type) :=
  | Ret (a : A)
  | Throw (err : jsstring).
Arguments Ret {A} a.
Arguments Throw {A} err.

(** Computations: the world goes in, an outcome and the world reached
    come out.  What was done before a throw stays done. *)
Definition M (A : Type) : Type := World -> outcome A * World.

#[global] Instance M_ret : MRet M := fun A a w => (Ret a, w).

#[global] Instance M_bind : MBind M := fun A B f m w =>
  match m w with
  | (Ret a, w') => f a w'
  | (Throw e, w') => (Throw e, w')
  end.

(** [try { body } catch (err) { handler }] *)
Definition try_catch {A} (body : M A) (handler : jsstring -> M A) : M A :=
  fun w =>
    match body w with
    | (Ret a, w') => (Ret a, w')
    | (Throw e, w') => handler e w'
    end.

(** [for (const x of xs) { acc = step acc x }] *)
Fixpoint for_of {A B} (xs : list A) (acc : B) (step : B -> A -> M B) : M B :=
  match xs with
  | [] => mret acc
  | x :: xs' => acc' ← step acc x; for_of xs' acc' step
  end.

(** The result of a call into code outside the handler. *)
Definition call {A} (r : outcome A) : M A := fun w => (r, w).

(** The world after more file-system calls, more log records, or with
    another heap. *)
Definition add_calls (w : World) (calls : list FsCall) : World :=
  {| heap := heap w; logs := logs w; fs_calls := fs_calls w ++ calls |}.

Definition add_logs (w : World) (records : list LogRecord) : World :=
  {| heap := heap w; logs := logs w ++ records; fs_calls := fs_calls w |}.

Definition set_heap (w : World) (h : gmap loc (gmap string Value)) : World :=
  {| heap := h; logs := logs w; fs_calls := fs_calls w |}.

(** [log.debug], [log.info] and [log.error]: a record is emitted; the
    logger does not throw. *)
Definition record (lv : Level) (msg : string) (meta : list (string * Value))
  : LogRecord :=
  {| log_level := lv; log_message := lit msg; log_meta := meta |}.

Definition log (lv : Level) (msg : string) (meta : list (string * Value)) : M unit :=
  fun w => (Ret tt, add_logs w [record lv msg meta]).

(** [{}]: a new object at a location the heap does not use yet. *)
Definition alloc_object : M Value :=
  fun w =>
    let l := fresh (dom (heap w)) in
    (Ret (VRef l), set_heap w (<[l := ∅]> (heap w))).

(** What has been imported from outside the file.  Each may throw. *)
Record Env := {
  fs_readdir : jsstring -> outcome (list jsstring);
  fs_readFile : jsstring -> outcome jsstring;
  path_join : list jsstring -> outcome jsstring;
  resolveAgentIdFromSessionKey : Value -> outcome jsstring;
  resolveAgentWorkspaceDir : Value -> jsstring -> outcome jsstring;
  resolveStateDir : outcome jsstring;
  (** the text of the [TypeError] the engine raises on a property
      access it refuses; the language leaves the wording open *)
  type_error : Value -> string -> jsstring
}.

(** The entries [getRecentMemories] returns. *)
Record MemoryEntry := {
  date : jsstring;
  content : jsstring;
  filename : jsstring
}.

Definition object_at (h : gmap loc (gmap string Value)) (l : loc) : gmap string Value :=
  default ∅ (h !! l).

(** The value of property [k] of the object at [l]; [undefined] when the
    object has no such property. *)
Definition prop_of (h : gmap loc (gmap string Value)) (l : loc) (k : string) : Value :=
  default VUndef (object_at h l !! k).

(** ** Property access *)

Section Handler.
Variable env : Env.

(** [v.k] read.  A primitive other than [undefined] and [null] has
    none of the properties the handler asks for. *)
Definition get_prop (v : Value) (k : string) : M Value :=
  fun w =>
    match v with
    | VRef l => (Ret (prop_of (heap w) l k), w)
    | VUndef | VNull => (Throw (type_error env v k), w)
    | _ => (Ret VUndef, w)
    end.

(** [v.k = x].  The file is a module, hence strict code: storing a
    property into a primitive throws. *)
Definition set_prop (v : Value) (k : string) (x : Value) : M unit :=
  fun w =>
    match v with
    | VRef l =>
        (Ret tt, set_heap w (<[l := <[k := x]> (object_at (heap w) l)]> (heap w)))
    | _ => (Throw (type_error env v k), w)
    end.

(** [await fs.readdir(dir)] and [await fs.readFile(file, "utf-8")]:
    the call is recorded, then it returns or throws. *)
Definition readdir (dir : jsstring) : M (list jsstring) :=
  fun w => (fs_readdir env dir, add_calls w [Readdir dir]).

Definition readFile (file : jsstring) : M jsstring :=
  fun w => (fs_readFile env file, add_calls w [ReadFile file]).

(** ** The three readers *)

(** [getRecentMemories(memoryDir, count = 3)] *)
Definition getRecentMemories (memoryDir : jsstring) (count : option Z)
  : M (list MemoryEntry) :=
  let count := default 3%Z count in
  try_catch
    (files ← readdir memoryDir;
     let mdFiles := select_recent files count in
     for_of mdFiles [] (fun memories file =>
       p ← call (path_join env [memoryDir; file]);
       content ← readFile p;
       let date := split_head 45 file in
       mret (push memories
               [{| date := date; content := content; filename := file |}])))
    (fun _ => mret []).

(** [getUserProfile(workspaceDir)]; [None] is [null]. *)
Definition getUserProfile (workspaceDir : jsstring) : M (option jsstring) :=
  try_catch
    (profilePath ← call (path_join env
                           [workspaceDir; lit "memory"; lit "jeeves-profile.md"]);
     c ← readFile profilePath;
     mret (Some c))
    (fun _ => mret None).

(** [getActiveContext(workspaceDir)] *)
Definition getActiveContext (workspaceDir : jsstring) : M (option jsstring) :=
  try_catch
    (contextPath ← call (path_join env
                           [workspaceDir; lit "memory"; lit "active-context.md"]);
     c ← readFile contextPath;
     mret (Some c))
    (fun _ => mret None).

(** ** Building the summary *)

(** [if (s)] for [s : string | null] *)
Definition truthy_text (s : option jsstring) : bool :=
  match s with
  | Some c => truthy (VStr c)
  | None => false
  end.

Definition text_of (s : option jsstring) : jsstring := default [] s.

(** Lines 98 to 113: the array [contextParts] after the three [if]s. *)
Definition build_context_parts
    (userProfile activeContext : option jsstring)
    (recentMemories : list MemoryEntry) : list jsstring :=
  let contextParts := [] in
  let contextParts :=
    if truthy_text userProfile
    then push contextParts
           [lit "## User Profile (Jeeves)"; slice0 (text_of userProfile) 1000; lit ""]
    else contextParts in
  let contextParts :=
    if truthy_text activeContext
    then push contextParts
           [lit "## Active Context"; slice0 (text_of activeContext) 1000; lit ""]
    else contextParts in
  let contextParts :=
    if (0 <? length recentMemories)%nat
    then fold_left
           (fun parts mem =>
              push parts
                [lit "### " ++ filename mem; slice0 (content mem) 500; lit ""])
           recentMemories
           (push contextParts [lit "## Recent Conversations"])
    else contextParts in
  contextParts.

(** [contextParts.join("\n")] *)
Definition full_context
    (userProfile activeContext : option jsstring)
    (recentMemories : list MemoryEntry) : jsstring :=
  join [10%N] (build_context_parts userProfile activeContext recentMemories).

(** ** The handler *)

(** The [try] block of [bootstrapSession]. *)
Definition bootstrap_body (event : loc) : M unit :=
  log Debug "Session bootstrap: Loading memory context" [];;
  ctx ← get_prop (VRef event) "context";
  context ← (if truthy ctx then mret ctx else alloc_object);
  cfg ← get_prop context "cfg";
  sessionKey ← get_prop (VRef event) "sessionKey";
  agentId ← call (resolveAgentIdFromSessionKey env sessionKey);
  workspaceDir ←
    (if truthy cfg
     then call (resolveAgentWorkspaceDir env cfg agentId)
     else stateDir ← call (resolveStateDir env);
          call (path_join env [stateDir; lit "workspace"]));
  memoryDir ← call (path_join env [workspaceDir; lit "memory"]);
  recentMemories ← getRecentMemories memoryDir (Some 3%Z);
  userProfile ← getUserProfile workspaceDir;
  activeContext ← getActiveContext workspaceDir;
  let fullContext := full_context userProfile activeContext recentMemories in
  set_prop context "memoryContext" (VStr fullContext);;
  set_prop context "hasMemory" (VBool true);;
  log Info "Session bootstrapped with memory context"
    [("memoriesLoaded", VNum (Z.of_nat (length recentMemories)));
     ("hasProfile", VBool (truthy_text userProfile));
     ("hasContext", VBool (truthy_text activeContext))];;
  log Debug "Memory context preview" [("preview", VStr (slice0 fullContext 200))].

(** [bootstrapSession(event)] *)
Definition bootstrapSession (event : loc) : M unit :=
  ty ← get_prop (VRef event) "type";
  action ← get_prop (VRef event) "action";
  if strict_neq ty (VStr (lit "agent")) || strict_neq action (VStr (lit "bootstrap"))
  then mret tt
  else
    try_catch (bootstrap_body event)
      (fun err => log Error "Failed to bootstrap session memory" [("error", VStr err)]).

End Handler.

(** ** What the readers compute, without the world

    The readers only add to the trace of file-system calls; their results
    are functions of the environment.  These are proved equal to the
    monadic code below ([getRecentMemories_run] and friends) and serve to
    state the theorems. *)

Section Results.
Variable env : Env.

(** One turn of the [for] loop of [getRecentMemories]. *)
Definition load_entry (memoryDir file : jsstring) : outcome MemoryEntry :=
  match path_join env [memoryDir; file] with
  | Throw e => Throw e
  | Ret p =>
      match fs_readFile env p with
      | Throw e => Throw e
      | Ret c => Ret {| date := split_head 45 file; content := c; filename := file |}
      end
  end.

Fixpoint load_entries (memoryDir : jsstring) (files : list jsstring)
  : outcome (list MemoryEntry) :=
  match files with
  | [] => Ret []
  | f :: files' =>
      match load_entry memoryDir f with
      | Throw e => Throw e
      | Ret m =>
          match load_entries memoryDir files' with
          | Throw e => Throw e
          | Ret ms => Ret (m :: ms)
          end
      end
  end.

Definition recent_memories_of (memoryDir : jsstring) (count : option Z)
  : list MemoryEntry :=
  match fs_readdir env memoryDir with
  | Throw _ => []
  | Ret files =>
      match load_entries memoryDir (select_recent files (default 3%Z count)) with
      | Throw _ => []
      | Ret ms => ms
      end
  end.

Definition read_text_of (workspaceDir : jsstring) (name : string) : option jsstring :=
  match path_join env [workspaceDir; lit "memory"; lit name] with
  | Throw _ => None
  | Ret p =>
      match fs_readFile env p with
      | Throw _ => None
      | Ret c => Some c
      end
  end.

(** Lines 86 to 89: the workspace directory, or what was thrown. *)
Definition workspace_of (cfg sessionKey : Value) : outcome jsstring :=
  match resolveAgentIdFromSessionKey env sessionKey with
  | Throw e => Throw e
  | Ret agentId =>
      if truthy cfg then resolveAgentWorkspaceDir env cfg agentId
      else match resolveStateDir env with
           | Throw e => Throw e
           | Ret stateDir => path_join env [stateDir; lit "workspace"]
           end
  end.

(** The text the handler publishes for a workspace directory. *)
Definition memory_context_of (workspaceDir memoryDir : jsstring) : jsstring :=
  full_context
    (read_text_of workspaceDir "jeeves-profile.md")
    (read_text_of workspaceDir "active-context.md")
    (recent_memories_of memoryDir (Some 3%Z)).
End Results.

(** ** The words of the specification *)

(** "four-digit year, dash, two-digit month, dash, two-digit day,
    followed by anything, ending in .md" *)
Definition digit (c : N) : Prop := (48 <= c <= 57)%N.

Definition dated_md_name (f : jsstring) : Prop :=
  (exists y1 y2 y3 y4 m1 m2 d1 d2 rest,
      f = [y1; y2; y3; y4; 45%N; m1; m2; 45%N; d1; d2] ++ rest
      /\ Forall digit [y1; y2; y3; y4; m1; m2; d1; d2])
  /\ exists stem, f = stem ++ lit ".md".

(** "lexicographically descending": each name is not below any later one. *)
Definition descending (l : list jsstring) : Prop :=
  StronglySorted (fun a b => str_ltb a b = false) l.

(** What [sort()] establishes: no name is below an earlier one. *)
Definition ascending (l : list jsstring) : Prop :=
  StronglySorted (fun a b => str_ltb b a = false) l.

(** "a heading line, then the content truncated to its first [limit]
    characters, then a blank separator line" *)
Definition text_section (heading : string) (limit : nat) (text : jsstring)
  : list jsstring :=
  [lit heading; firstn limit text; lit ""].

(** "a per-entry heading naming the filename, followed by that entry's
    content truncated to 500 characters, followed by a blank separator" *)
Definition entry_section (m : MemoryEntry) : list jsstring :=
  [lit "### " ++ filename m; firstn 500 (content m); lit ""].

Definition recent_section (ms : list MemoryEntry) : list jsstring :=
  lit "## Recent Conversations" :: concat (map entry_section ms).

(** A section is rendered for a text source that is there and not empty,
    and for the recent memories when there is at least one. *)
Definition rendered_text (heading : string) (limit : nat) (src : option jsstring)
  : list jsstring :=
  match src with
  | Some (c :: text) => text_section heading limit (c :: text)
  | _ => []
  end.

Definition rendered_recent (ms : list MemoryEntry) : list jsstring :=
  match ms with
  | [] => []
  | _ :: _ => recent_section ms
  end.

(** The context object once the handler has published into it. *)
Definition published (full : jsstring) (o : gmap string Value) : gmap string Value :=
  <["hasMemory" := VBool true]> (<["memoryContext" := VStr full]> o).

(** The event passes the filter of line 77. *)
Definition admitted (h : gmap loc (gmap string Value)) (event : loc) : Prop :=
  prop_of h event "type" = VStr (lit "agent")
  /\ prop_of h event "action" = VStr (lit "bootstrap").

(** ** A small disk to run the handler on *)

Definition enoent : jsstring := lit "Error: ENOENT: no such file or directory".

Fixpoint assoc (k : jsstring) (kvs : list (jsstring * jsstring)) : option jsstring :=
  match kvs with
  | [] => None
  | (k', v) :: kvs' => if bool_decide (k = k') then Some v else assoc k kvs'
  end.

(** A workspace at [/state/workspace]: [listing] is what [readdir] gives
    for its [memory] directory ([None]: no such directory), [files] maps
    full paths to contents. *)
Definition disk_env (listing : option (list jsstring))
    (files : list (jsstring * jsstring)) : Env :=
  {| fs_readdir := fun d =>
       if bool_decide (d = lit "/state/workspace/memory")
       then match listing with Some l => Ret l | None => Throw enoent end
       else Throw enoent;
     fs_readFile := fun p =>
       match assoc p files with Some c => Ret c | None => Throw enoent end;
     path_join := fun parts => Ret (join (lit "/") parts);
     resolveAgentIdFromSessionKey := fun _ => Ret (lit "main");
     resolveAgentWorkspaceDir := fun _ _ => Ret (lit "/state/workspace");
     resolveStateDir := Ret (lit "/state");
     type_error := fun _ _ => lit "TypeError" |}.

(** An environment whose resolver throws. *)
Definition broken_env : Env :=
  {| fs_readdir := fun _ => Throw enoent;
     fs_readFile := fun _ => Throw enoent;
     path_join := fun parts => Ret (join (lit "/") parts);
     resolveAgentIdFromSessionKey := fun _ => Throw (lit "Error: bad session key");
     resolveAgentWorkspaceDir := fun _ _ => Ret (lit "/state/workspace");
     resolveStateDir := Ret (lit "/state");
     type_error := fun _ _ => lit "TypeError" |}.

(** The event at location 1, its context given by [ctx]; location 2 holds
    an empty context object. *)
Definition event_object (ty action : string) (ctx : Value) : gmap string Value :=
  <["type" := VStr (lit ty)]>
    (<["action" := VStr (lit action)]>
       (<["sessionKey" := VStr (lit "agent:main:main")]>
          (<["context" := ctx]> ∅))).

Definition sample_world (ty action : string) (ctx : Value) : World :=
  {| heap := <[1%positive := event_object ty action ctx]> (<[2%positive := ∅]> ∅);
     logs := [];
     fs_calls := [] |}.

Definition sample_profile : jsstring := repeat 120%N 1500.

Definition memory_path (name : string) : jsstring :=
  lit "/state/workspace/memory/" ++ lit name.

Definition listing_2024 : list jsstring :=
  [lit "2024-01-01-a.md"; lit "2024-03-15-b.md"; lit "2024-02-10-c.md"; lit "notes.txt"].

(** Every file of the listing is there and readable. *)
Definition full_disk : Env :=
  disk_env (Some listing_2024)
    [(memory_path "2024-01-01-a.md", lit "first");
     (memory_path "2024-03-15-b.md", lit "third");
     (memory_path "2024-02-10-c.md", lit "second");
     (memory_path "notes.txt", lit "n");
     (memory_path "jeeves-profile.md", sample_profile);
     (memory_path "active-context.md", lit "ship it")].

(** The dated file [2024-03-15-b.md] is listed but cannot be read. *)
Definition corrupt_disk : Env :=
  disk_env (Some listing_2024)
    [(memory_path "2024-01-01-a.md", lit "first");
     (memory_path "2024-02-10-c.md", lit "second");
     (memory_path "jeeves-profile.md", lit "likes tea");
     (memory_path "active-context.md", lit "ship it")].

(** Profile and active context are readable and empty; the one dated
    file cannot be read. *)
Definition blank_disk : Env :=
  disk_env (Some [lit "2024-03-15-b.md"])
    [(memory_path "jeeves-profile.md", lit "");
     (memory_path "active-context.md", lit "")].

(** An empty profile next to a readable active context. *)
Definition blank_profile_disk : Env :=
  disk_env (Some [])
    [(memory_path "jeeves-profile.md", lit "");
     (memory_path "active-context.md", lit "ship it")].

(** No [memory] directory at all. *)
Definition bare_disk : Env := disk_env None [].

(** The world a run ends in. *)
Definition final_world (env : Env) (event : loc) (w : World) : World :=
  snd (bootstrapSession env event w).

(** ** The file-system calls of a run

    Like the results, the calls the readers make are functions of the
    environment: the loop stops at the first name whose path cannot be
    built or whose file cannot be read. *)

Section Calls.
Variable env : Env.

Fixpoint entries_calls (memoryDir : jsstring) (files : list jsstring) : list FsCall :=
  match files with
  | [] => []
  | f :: files' =>
      match path_join env [memoryDir; f] with
      | Throw _ => []
      | Ret p =>
          ReadFile p
          :: match fs_readFile env p with
             | Throw _ => []
             | Ret _ => entries_calls memoryDir files'
             end
      end
  end.

Definition recent_calls (memoryDir : jsstring) (count : option Z) : list FsCall :=
  Readdir memoryDir
  :: match fs_readdir env memoryDir with
     | Throw _ => []
     | Ret files => entries_calls memoryDir (select_recent files (default 3%Z count))
     end.

Definition text_calls (workspaceDir : jsstring) (name : string) : list FsCall :=
  match path_join env [workspaceDir; lit "memory"; lit name] with
  | Throw _ => []
  | Ret p => [ReadFile p]
  end.

(** Lines 93 to 95, in the order the handler awaits them. *)
Definition handler_calls (workspaceDir memoryDir : jsstring) : list FsCall :=
  recent_calls memoryDir (Some 3%Z)
  ++ text_calls workspaceDir "jeeves-profile.md"
  ++ text_calls workspaceDir "active-context.md".

(** The three records of a run that reaches the end of the [try] block. *)
Definition success_logs (workspaceDir memoryDir : jsstring) : list LogRecord :=
  [record Debug "Session bootstrap: Loading memory context" [];
   record Info "Session bootstrapped with memory context"
     [("memoriesLoaded",
       VNum (Z.of_nat (length (recent_memories_of env memoryDir (Some 3%Z)))));
      ("hasProfile",
       VBool (truthy_text (read_text_of env workspaceDir "jeeves-profile.md")));
      ("hasContext",
       VBool (truthy_text (read_text_of env workspaceDir "active-context.md")))];
   record Debug "Memory context preview"
     [("preview", VStr (slice0 (memory_context_of env workspaceDir memoryDir) 200))]].
End Calls.

(** The same environment with another [fs.readdir]. *)
Definition with_readdir (env : Env) (listing : jsstring -> outcome (list jsstring)) : Env :=
  {| fs_readdir := listing;
     fs_readFile := fs_readFile env;
     path_join := path_join env;
     resolveAgentIdFromSessionKey := resolveAgentIdFromSessionKey env;
     resolveAgentWorkspaceDir := resolveAgentWorkspaceDir env;
     resolveStateDir := resolveStateDir env;
     type_error := type_error env |}.

(** An upper bound on what the entries add to the text: per entry the
    heading ["### " + filename], 500 units of content, the blank line and
    the three separators. *)
Definition entries_budget (ms : list MemoryEntry) : nat :=
  fold_right (fun m acc => length (filename m) + 507 + acc) 0 ms.

(** Parts that open with a ["## "] heading and close with a blank. *)
Definition framed (parts : list jsstring) : Prop :=
  exists title rest, parts = (lit "## " ++ title) :: rest ++ [[]].

Definition is_read (c : FsCall) : Prop :=
  match c with
  | ReadFile _ => True
  | Readdir _ => False
  end.

(** * Theorems *)

(** ** The order on strings and [sort] *)

Section StringOrder.

Lemma str_ltb_irrefl x : str_ltb x x = false.
Proof.
  induction x as [|a x IH]; simpl; [reflexivity|].
  rewrite N.ltb_irrefl. exact IH.
Qed.

Lemma str_ltb_asym x y : str_ltb x y = true -> str_ltb y x = false.
Proof.
  revert y. induction x as [|a x IH]; intros [|b y]; simpl; try easy.
  destruct (N.ltb_spec a b), (N.ltb_spec b a); try easy; try lia.
  apply IH.
Qed.

Lemma str_ltb_antisym x y : str_ltb x y = false -> str_ltb y x = false -> x = y.
Proof.
  revert y. induction x as [|a x IH]; intros [|b y]; simpl; try easy.
  destruct (N.ltb_spec a b), (N.ltb_spec b a); try easy.
  intros Hx Hy. f_equal; [lia | now apply IH].
Qed.

(** [x <= y] and [y <= z] give [x <= z], with [x <= y] read as "not [y < x]". *)
Lemma str_le_trans x y z :
  str_ltb y x = false -> str_ltb z y = false -> str_ltb z x = false.
Proof.
  revert y z. induction x as [|a x IH]; intros [|b y] [|c z]; simpl; try easy.
  destruct (N.ltb_spec b a), (N.ltb_spec a b), (N.ltb_spec c b), (N.ltb_spec b c),
    (N.ltb_spec c a), (N.ltb_spec a c); try easy; try lia.
  apply IH.
Qed.

Lemma sort_insert_perm x l : Permutation (sort_insert x l) (x :: l).
Proof.
  induction l as [|y l IH]; simpl; [reflexivity|].
  destruct (str_ltb x y); [reflexivity|].
  rewrite IH. apply perm_swap.
Qed.

Lemma sort_insert_ascending x l : ascending l -> ascending (sort_insert x l).
Proof.
  unfold ascending. induction l as [|y l IH]; simpl; intros Hl.
  - repeat constructor.
  - apply StronglySorted_inv in Hl as [Hl Hy].
    destruct (str_ltb x y) eqn:Hxy.
    + constructor; [now constructor|].
      constructor; [now apply str_ltb_asym|].
      eapply Forall_impl; [exact Hy|]. simpl. intros z Hz.
      eapply str_le_trans; [|exact Hz]. now apply str_ltb_asym.
    + constructor; [now apply IH|].
      eapply Permutation_Forall; [symmetry; apply sort_insert_perm|].
      now constructor.
Qed.

Lemma array_sort_perm l : Permutation (array_sort l) l.
Proof.
  induction l as [|x l IH]; simpl; [reflexivity|].
  rewrite sort_insert_perm. now constructor.
Qed.

Lemma array_sort_ascending l : ascending (array_sort l).
Proof.
  induction l as [|x l IH]; simpl; [constructor|].
  now apply sort_insert_ascending.
Qed.

(** A list of strings has one ascending arrangement: whatever algorithm
    the engine sorts with, it returns what [array_sort] returns. *)
Lemma sort_unique l sorted :
  Permutation sorted l -> ascending sorted -> sorted = array_sort l.
Proof.
  intros Hp Hs.
  assert (Hanti : AntiSymm eq (fun a b : jsstring => str_ltb b a = false)).
  { intros a b Hab Hba. now apply str_ltb_antisym. }
  eapply (StronglySorted_unique _ _ _ Hs (array_sort_ascending l)).
  rewrite Hp. symmetry. apply array_sort_perm.
Qed.

Lemma rev_descending l : ascending l -> descending (rev l).
Proof.
  unfold ascending, descending.
  induction l as [|x l IH]; simpl; intros Hl; [constructor|].
  apply StronglySorted_inv in Hl as [Hl Hx].
  apply StronglySorted_app. split; [|split].
  - intros a b Ha Hb. apply list_elem_of_singleton in Hb. subst b.
    apply list_elem_of_In, in_rev in Ha.
    rewrite List.Forall_forall in Hx. now apply Hx.
  - now apply IH.
  - repeat constructor.
Qed.

Lemma filter_perm (f : jsstring -> bool) l l' :
  Permutation l l' -> Permutation (List.filter f l) (List.filter f l').
Proof.
  induction 1 as [|x l l' _ IH|x y l|l l' l'' _ IH1 _ IH2]; simpl.
  - reflexivity.
  - destruct (f x); [now constructor | exact IH].
  - destruct (f x), (f y); try reflexivity. apply perm_swap.
  - now rewrite IH1.
Qed.

End StringOrder.

(** ** The file-name filter *)

Section Filter.

Lemma startsWith_spec s p : startsWith s p = true <-> exists r, s = p ++ r.
Proof.
  revert s. induction p as [|b p IH]; intros s; simpl.
  - split; [intros _; now exists s | reflexivity].
  - destruct s as [|a s].
    + split; [discriminate | intros [r Hr]; discriminate].
    + rewrite andb_true_iff, N.eqb_eq, IH. split.
      * intros [-> [r ->]]. now exists r.
      * intros [r Hr]. injection Hr as -> ->. eauto.
Qed.

Lemma endsWith_spec s p : endsWith s p = true <-> exists stem, s = stem ++ p.
Proof.
  unfold endsWith. rewrite andb_true_iff, Nat.leb_le, startsWith_spec. split.
  - intros [Hlen [r Hr]]. exists (firstn (length s - length p) s).
    assert (Hl : length (skipn (length s - length p) s) = length p)
      by (rewrite length_skipn; lia).
    rewrite Hr, length_app in Hl.
    assert (r = []) as -> by (destruct r; [reflexivity | simpl in Hl; lia]).
    rewrite app_nil_r in Hr.
    transitivity (firstn (length s - length p) s ++ skipn (length s - length p) s).
    + symmetry. apply firstn_skipn.
    + now rewrite Hr.
  - intros [stem ->]. rewrite length_app. split; [lia|].
    exists []. rewrite app_nil_r.
    replace (length stem + length p - length p)%nat with (length stem) by lia.
    rewrite skipn_app, skipn_all, Nat.sub_diag. reflexivity.
Qed.

Lemma is_digit_spec c : is_digit c = true <-> digit c.
Proof.
  unfold is_digit, digit. rewrite andb_true_iff, !N.leb_le. reflexivity.
Qed.

Lemma date_regex_spec f :
  match_anchored date_regex f = true <->
  exists y1 y2 y3 y4 m1 m2 d1 d2 rest,
    f = [y1; y2; y3; y4; 45%N; m1; m2; 45%N; d1; d2] ++ rest
    /\ Forall digit [y1; y2; y3; y4; m1; m2; d1; d2].
Proof.
  split.
  - intros H.
    do 10 (destruct f as [|? f];
           [cbn in H; rewrite ?andb_false_r in H; discriminate H|]).
    simpl in H. rewrite !andb_true_iff, !N.eqb_eq, !is_digit_spec in H.
    destruct H as (? & ? & ? & ? & -> & ? & ? & -> & ? & ? & _).
    do 8 eexists. exists f. split; [reflexivity|].
    repeat (constructor; [assumption|]). constructor.
  - intros (y1 & y2 & y3 & y4 & m1 & m2 & d1 & d2 & rest & -> & Hd).
    repeat (apply Forall_cons_iff in Hd as [?%is_digit_spec Hd]).
    unfold is_digit in *.
    repeat match goal with
           | H : _ && _ = true |- _ => apply andb_true_iff in H as [? ?]
           end.
    simpl. repeat (apply andb_true_intro; split); auto.
Qed.

(** The filter of the code keeps the names the specification describes. *)
Lemma is_memory_file_spec f : is_memory_file f = true <-> dated_md_name f.
Proof.
  unfold is_memory_file, dated_md_name.
  rewrite andb_true_iff, endsWith_spec, date_regex_spec. tauto.
Qed.

Lemma select_recent_firstn files (n : nat) :
  select_recent files (Z.of_nat n)
  = firstn n (rev (array_sort (List.filter is_memory_file files))).
Proof.
  unfold select_recent, array_slice0.
  destruct (Z.ltb_spec (Z.of_nat n) 0); [lia|].
  now rewrite Nat2Z.id.
Qed.

(** The order in which [readdir] lists the directory does not matter. *)
Lemma select_recent_perm files files' count :
  Permutation files files' -> select_recent files count = select_recent files' count.
Proof.
  intros Hp. unfold select_recent. f_equal. f_equal.
  rewrite (sort_unique (List.filter is_memory_file files')
             (array_sort (List.filter is_memory_file files))).
  - reflexivity.
  - rewrite array_sort_perm. now apply filter_perm.
  - apply array_sort_ascending.
Qed.

End Filter.

(** ** Running the monadic code *)

Section Runs.
Variable env : Env.

Lemma add_calls_nil w : add_calls w [] = w.
Proof. destruct w. unfold add_calls. simpl. now rewrite app_nil_r. Qed.

Lemma add_calls_app w c1 c2 :
  add_calls (add_calls w c1) c2 = add_calls w (c1 ++ c2).
Proof. unfold add_calls. simpl. now rewrite app_assoc. Qed.

Lemma bind_ret {A B} (m : M A) (f : A -> M B) w a w' :
  m w = (Ret a, w') -> (m ≫= f) w = f a w'.
Proof. intros H. unfold mbind, M_bind. now rewrite H. Qed.

Lemma bind_throw {A B} (m : M A) (f : A -> M B) w e w' :
  m w = (Throw e, w') -> (m ≫= f) w = (Throw e, w').
Proof. intros H. unfold mbind, M_bind. now rewrite H. Qed.

(** The loop of [getRecentMemories]: all files load, or the first
    failure is thrown; only the trace of calls grows. *)
Lemma load_loop_run memoryDir files acc w :
  exists calls,
    for_of files acc
      (fun memories file =>
         p ← call (path_join env [memoryDir; file]);
         content ← readFile env p;
         let date := split_head 45 file in
         mret (push memories
                 [{| date := date; content := content; filename := file |}])) w
    = (match load_entries env memoryDir files with
       | Ret ms => Ret (acc ++ ms)
       | Throw e => Throw e
       end, add_calls w calls).
Proof.
  revert acc w. induction files as [|f files IH]; intros acc w.
  - exists []. simpl. now rewrite add_calls_nil, app_nil_r.
  - simpl. unfold load_entry.
    unfold mbind at 1. unfold M_bind at 1.
    unfold mbind at 1. unfold M_bind at 1. unfold call at 1.
    destruct (path_join env [memoryDir; f]) as [p|e].
    + unfold mbind at 1. unfold M_bind at 1. unfold readFile at 1.
      destruct (fs_readFile env p) as [c|e].
      * unfold mret at 1. unfold M_ret at 1.
        destruct (IH (push acc [{| date := split_head 45 f; content := c; filename := f |}])
                    (add_calls w [ReadFile p])) as [calls Hc].
        exists (ReadFile p :: calls).
        etransitivity; [exact Hc|]. rewrite add_calls_app. simpl.
        destruct (load_entries env memoryDir files); [|reflexivity].
        unfold push. now rewrite <- app_assoc.
      * exists [ReadFile p]. reflexivity.
    + exists []. now rewrite add_calls_nil.
Qed.

Lemma getRecentMemories_run memoryDir count w :
  exists calls,
    getRecentMemories env memoryDir count w
    = (Ret (recent_memories_of env memoryDir count), add_calls w calls).
Proof.
  unfold getRecentMemories, recent_memories_of, try_catch.
  unfold mbind at 1. unfold M_bind at 1. unfold readdir.
  destruct (fs_readdir env memoryDir) as [files|e].
  - destruct (load_loop_run memoryDir (select_recent files (default 3%Z count)) []
                (add_calls w [Readdir memoryDir])) as [calls Hc].
    cbv zeta in Hc |- *. rewrite Hc, add_calls_app.
    destruct (load_entries env memoryDir _); eexists; reflexivity.
  - eexists; reflexivity.
Qed.

Lemma read_text_run workspaceDir (name : string) w :
  exists calls,
    try_catch
      (p ← call (path_join env [workspaceDir; lit "memory"; lit name]);
       c ← readFile env p;
       mret (Some c))
      (fun _ => mret None) w
    = (Ret (read_text_of env workspaceDir name), add_calls w calls).
Proof.
  unfold try_catch, read_text_of, mbind, M_bind, call, readFile, mret, M_ret.
  destruct (path_join env _) as [p|e].
  - destruct (fs_readFile env p); eexists; reflexivity.
  - exists []. now rewrite add_calls_nil.
Qed.

Lemma getUserProfile_run workspaceDir w :
  exists calls,
    getUserProfile env workspaceDir w
    = (Ret (read_text_of env workspaceDir "jeeves-profile.md"), add_calls w calls).
Proof. apply read_text_run. Qed.

Lemma getActiveContext_run workspaceDir w :
  exists calls,
    getActiveContext env workspaceDir w
    = (Ret (read_text_of env workspaceDir "active-context.md"), add_calls w calls).
Proof. apply read_text_run. Qed.

End Runs.

(** ** Running the handler *)

Section HandlerRuns.
Variable env : Env.

Lemma prop_of_alloc h l0 l k :
  h !! l0 = None -> prop_of (<[l0 := ∅]> h) l k = prop_of h l k.
Proof.
  intros Hfresh. unfold prop_of, object_at.
  destruct (decide (l0 = l)) as [->|Hne].
  - now rewrite lookup_insert_eq, Hfresh.
  - now rewrite lookup_insert_ne.
Qed.

(** The [try] block, case by case: where the workspace cannot be
    resolved it throws before anything is stored; otherwise the readers
    run and the summary is stored into the context object; a context
    that is a primitive refuses the store. *)
Lemma bootstrap_body_run event w :
  let ctx := prop_of (heap w) event "context" in
  let sessionKey := prop_of (heap w) event "sessionKey" in
  let w1 := add_logs w [record Debug "Session bootstrap: Loading memory context" []] in
  let l0 := fresh (dom (heap w)) in
  let context := if truthy ctx then ctx else VRef l0 in
  let w2 := if truthy ctx then w1 else set_heap w1 (<[l0 := ∅]> (heap w)) in
  let cfg := match context with VRef l => prop_of (heap w2) l "cfg" | _ => VUndef end in
  match workspace_of env cfg sessionKey with
  | Throw e => bootstrap_body env event w = (Throw e, w2)
  | Ret workspaceDir =>
      match path_join env [workspaceDir; lit "memory"] with
      | Throw e => bootstrap_body env event w = (Throw e, w2)
      | Ret memoryDir =>
          let userProfile := read_text_of env workspaceDir "jeeves-profile.md" in
          let activeContext := read_text_of env workspaceDir "active-context.md" in
          let recentMemories := recent_memories_of env memoryDir (Some 3%Z) in
          let full := full_context userProfile activeContext recentMemories in
          exists calls,
            match context with
            | VRef l =>
                bootstrap_body env event w =
                (Ret tt,
                 add_logs
                   (set_heap (add_calls w2 calls)
                      (<[l := published full (object_at (heap w2) l)]> (heap w2)))
                   [record Info "Session bootstrapped with memory context"
                      [("memoriesLoaded", VNum (Z.of_nat (length recentMemories)));
                       ("hasProfile", VBool (truthy_text userProfile));
                       ("hasContext", VBool (truthy_text activeContext))];
                    record Debug "Memory context preview"
                      [("preview", VStr (slice0 full 200))]])
            | _ =>
                bootstrap_body env event w =
                (Throw (type_error env context "memoryContext"), add_calls w2 calls)
            end
      end
  end.
Proof.
  intros ctx sessionKey w1 l0 context w2 cfg.
  unfold bootstrap_body.
  erewrite bind_ret by reflexivity.
  erewrite bind_ret by reflexivity.
  change (prop_of (heap (add_logs w _)) event "context") with ctx.
  change (add_logs w _) with w1.
  assert (Hctx : (if truthy ctx then mret ctx else alloc_object) w1 = (Ret context, w2)).
  { subst context w2. destruct (truthy ctx); reflexivity. }
  erewrite bind_ret by exact Hctx.
  assert (Hcfg : get_prop env context "cfg" w2 = (Ret cfg, w2)).
  { subst cfg context. destruct (truthy ctx) eqn:Ht; [|reflexivity].
    destruct ctx; try discriminate Ht; reflexivity. }
  erewrite bind_ret by exact Hcfg.
  assert (Hsk : get_prop env (VRef event) "sessionKey" w2 = (Ret sessionKey, w2)).
  { unfold get_prop. f_equal. f_equal. subst w2 sessionKey.
    destruct (truthy ctx); [reflexivity|].
    apply prop_of_alloc. apply not_elem_of_dom, is_fresh. }
  erewrite bind_ret by exact Hsk.
  unfold workspace_of.
  destruct (resolveAgentIdFromSessionKey env sessionKey) as [agentId|e] eqn:Hid;
    [erewrite bind_ret by (unfold call; rewrite ?Hid; reflexivity)
    |erewrite bind_throw by (unfold call; rewrite ?Hid; reflexivity); reflexivity].
  assert (Hws : forall r,
             (if truthy cfg
              then resolveAgentWorkspaceDir env cfg agentId
              else match resolveStateDir env with
                   | Ret stateDir => path_join env [stateDir; lit "workspace"]
                   | Throw e => Throw e
                   end) = r ->
             (if truthy cfg
              then call (resolveAgentWorkspaceDir env cfg agentId)
              else stateDir ← call (resolveStateDir env);
                   call (path_join env [stateDir; lit "workspace"])) w2 = (r, w2)).
  { intros r <-. destruct (truthy cfg); [reflexivity|].
    unfold mbind, M_bind, call. now destruct (resolveStateDir env). }
  destruct (if truthy cfg then _ else _) as [workspaceDir|e] eqn:Hdir;
    [erewrite bind_ret by (now apply Hws)
    |erewrite bind_throw by (now apply Hws); reflexivity].
  destruct (path_join env [workspaceDir; lit "memory"]) as [memoryDir|e] eqn:Hmd;
    [erewrite bind_ret by (unfold call; rewrite ?Hmd; reflexivity)
    |erewrite bind_throw by (unfold call; rewrite ?Hmd; reflexivity); reflexivity].
  destruct (getRecentMemories_run env memoryDir (Some 3%Z) w2) as [c1 H1].
  erewrite bind_ret by exact H1.
  destruct (getUserProfile_run env workspaceDir (add_calls w2 c1)) as [c2 H2].
  erewrite bind_ret by exact H2.
  destruct (getActiveContext_run env workspaceDir (add_calls (add_calls w2 c1) c2))
    as [c3 H3].
  erewrite bind_ret by exact H3.
  rewrite !add_calls_app. exists (c1 ++ c2 ++ c3).
  destruct context as [| | | | |l]; try (erewrite bind_throw by reflexivity; reflexivity).
  erewrite bind_ret by reflexivity.
  erewrite bind_ret by reflexivity.
  erewrite bind_ret by reflexivity.
  unfold log, add_logs, set_heap, add_calls, published.
  cbn [heap logs fs_calls]. f_equal. f_equal.
  - unfold object_at at 1. rewrite lookup_insert_eq. cbn [default].
    now rewrite insert_insert_eq.
  - now rewrite <- app_assoc.
Qed.

Lemma bootstrapSession_admitted event w :
  admitted (heap w) event ->
  bootstrapSession env event w
  = try_catch (bootstrap_body env event)
      (fun err => log Error "Failed to bootstrap session memory" [("error", VStr err)]) w.
Proof.
  intros [Hty Hact]. unfold bootstrapSession.
  erewrite bind_ret by reflexivity. erewrite bind_ret by reflexivity.
  rewrite Hty, Hact. reflexivity.
Qed.

Lemma bootstrapSession_rejected event w :
  prop_of (heap w) event "type" <> VStr (lit "agent")
  \/ prop_of (heap w) event "action" <> VStr (lit "bootstrap") ->
  bootstrapSession env event w = (Ret tt, w).
Proof.
  intros H. unfold bootstrapSession.
  erewrite bind_ret by reflexivity. erewrite bind_ret by reflexivity.
  unfold strict_neq.
  destruct H as [H|H]; rewrite (bool_decide_eq_false_2 _ H); simpl;
    [reflexivity | now rewrite orb_true_r].
Qed.

(** A [try] whose [catch] only logs never throws, whatever its body does. *)
Lemma try_catch_log_total (body : M unit) lv msg (meta : jsstring -> list (string * Value)) w :
  exists w', try_catch body (fun err => log lv msg (meta err)) w = (Ret tt, w').
Proof.
  unfold try_catch. destruct (body w) as [[[]|e] w']; eexists; reflexivity.
Qed.

(** With a context object and a workspace that resolves, the handler
    returns and the summary is in the context object. *)
Lemma handler_publishes event w c workspaceDir memoryDir :
  admitted (heap w) event ->
  prop_of (heap w) event "context" = VRef c ->
  workspace_of env (prop_of (heap w) c "cfg") (prop_of (heap w) event "sessionKey")
  = Ret workspaceDir ->
  path_join env [workspaceDir; lit "memory"] = Ret memoryDir ->
  exists w',
    bootstrapSession env event w = (Ret tt, w')
    /\ heap w'
       = <[c := published (memory_context_of env workspaceDir memoryDir)
                  (object_at (heap w) c)]> (heap w)
    /\ Forall (fun r => log_level r <> Error) (skipn (length (logs w)) (logs w')).
Proof.
  intros Hadm Hctx Hws Hmd.
  rewrite (bootstrapSession_admitted _ _ Hadm). unfold try_catch.
  pose proof (bootstrap_body_run event w) as Hrun. cbv zeta in Hrun.
  rewrite Hctx in Hrun. cbn [truthy] in Hrun.
  change (heap (add_logs w _)) with (heap w) in Hrun.
  rewrite Hws, Hmd in Hrun. destruct Hrun as [calls ->].
  eexists. split; [reflexivity|]. split; [reflexivity|].
  unfold add_logs, set_heap, add_calls. cbn [logs].
  rewrite <- app_assoc, skipn_app, skipn_all, Nat.sub_diag. simpl.
  repeat constructor; discriminate.
Qed.

Lemma published_memoryContext h c full o :
  prop_of (<[c := published full o]> h) c "memoryContext" = VStr full.
Proof.
  unfold prop_of, object_at, published.
  rewrite lookup_insert_eq. cbv beta iota delta [default from_option id].
  rewrite lookup_insert_ne by discriminate. now rewrite lookup_insert_eq.
Qed.

Lemma published_hasMemory h c full o :
  prop_of (<[c := published full o]> h) c "hasMemory" = VBool true.
Proof.
  unfold prop_of, object_at, published.
  rewrite lookup_insert_eq. cbv beta iota delta [default from_option id].
  now rewrite lookup_insert_eq.
Qed.

End HandlerRuns.

(** ** The assembled text *)

Section Assembly.

Lemma push_entries ms acc :
  fold_left
    (fun parts mem =>
       push parts [lit "### " ++ filename mem; slice0 (content mem) 500; lit ""])
    ms acc
  = acc ++ concat (map entry_section ms).
Proof.
  revert acc. induction ms as [|m ms IH]; intros acc; simpl.
  - now rewrite app_nil_r.
  - rewrite IH. unfold push. rewrite <- app_assoc. reflexivity.
Qed.

(** The array the handler joins is the three sections, in this order. *)
Lemma build_context_parts_layout p a ms :
  build_context_parts p a ms
  = rendered_text "## User Profile (Jeeves)" 1000 p
    ++ rendered_text "## Active Context" 1000 a
    ++ rendered_recent ms.
Proof.
  unfold build_context_parts.
  assert (Htext : forall heading limit (src : option jsstring) (acc : list jsstring),
             (if truthy_text src
              then push acc [lit heading; slice0 (text_of src) limit; lit ""]
              else acc)
             = acc ++ rendered_text heading limit src).
  { intros heading limit [[|c s]|] acc; simpl; try now rewrite app_nil_r.
    reflexivity. }
  rewrite !Htext. simpl app at 1.
  destruct ms as [|m ms].
  - simpl. now rewrite !app_nil_r.
  - cbn [length Nat.ltb Nat.leb]. rewrite push_entries. unfold push.
    unfold rendered_recent, recent_section. now rewrite <- !app_assoc.
Qed.

Lemma rendered_text_nonempty heading limit (src : option jsstring) :
  rendered_text heading limit src <> [] <-> exists c, src = Some c /\ c <> [].
Proof.
  destruct src as [[|c s]|]; simpl; split; try easy.
  - intros (c & Hc & Hne). now injection Hc as <-.
  - intros _. now exists (c :: s).
  - intros (c & Hc & _). discriminate.
Qed.

Lemma firstn_descending n l : descending l -> descending (firstn n l).
Proof.
  unfold descending. intros H.
  rewrite <- (firstn_skipn n l) in H.
  now apply StronglySorted_app_1_l in H.
Qed.

Lemma array_slice0_firstn {A} (xs : list A) count :
  exists n, array_slice0 xs count = firstn n xs.
Proof. unfold array_slice0. destruct (count <? 0)%Z; eexists; reflexivity. Qed.

Lemma select_recent_descending files count : descending (select_recent files count).
Proof.
  unfold select_recent.
  destruct (array_slice0_firstn
              (rev (array_sort (List.filter is_memory_file files))) count) as [n ->].
  apply firstn_descending, rev_descending, array_sort_ascending.
Qed.

Lemma select_recent_kept files count f :
  In f (select_recent files count) -> In f files /\ is_memory_file f = true.
Proof.
  unfold select_recent.
  destruct (array_slice0_firstn
              (rev (array_sort (List.filter is_memory_file files))) count) as [n ->].
  intros H. apply list_elem_of_In, (subseteq_take n), list_elem_of_In, in_rev in H.
  apply (Permutation_in _ (array_sort_perm _)) in H.
  now apply filter_In in H.
Qed.

(** What the loop loads: one entry per file, in the order of the files,
    its [date] what precedes the first dash of the name. *)
Lemma load_entries_ok env memoryDir files ms :
  load_entries env memoryDir files = Ret ms ->
  map filename ms = files
  /\ Forall (fun m => date m = split_head 45 (filename m)) ms.
Proof.
  revert ms. induction files as [|f files IH]; simpl; intros ms H.
  - injection H as <-. split; [reflexivity | constructor].
  - unfold load_entry in H.
    destruct (path_join env [memoryDir; f]) as [p|]; [|discriminate].
    destruct (fs_readFile env p) as [c|]; [|discriminate].
    destruct (load_entries env memoryDir files) as [ms'|]; [|discriminate].
    injection H as <-. destruct (IH ms' eq_refl) as [Hn Hd].
    simpl. split; [now f_equal | now constructor].
Qed.

Lemma recent_memories_cases env memoryDir count :
  recent_memories_of env memoryDir count = []
  \/ exists files,
       fs_readdir env memoryDir = Ret files
       /\ load_entries env memoryDir (select_recent files (default 3%Z count))
          = Ret (recent_memories_of env memoryDir count).
Proof.
  unfold recent_memories_of.
  destruct (fs_readdir env memoryDir) as [files|]; [|now left].
  destruct (load_entries env memoryDir _) as [ms|] eqn:H; [|now left].
  right. now exists files.
Qed.

Lemma recent_memories_descending env memoryDir count :
  descending (map filename (recent_memories_of env memoryDir count)).
Proof.
  destruct (recent_memories_cases env memoryDir count) as [->|(files & _ & H)].
  - constructor.
  - apply load_entries_ok in H as [-> _]. apply select_recent_descending.
Qed.

End Assembly.

(** ** The event filter and the failure boundary *)

Section Boundary.
Variable env : Env.

(** When the [try] block throws, the objects that were there are as
    they were, and only the first debug record has been logged. *)
Lemma body_throw_frame event w err w1 :
  bootstrap_body env event w = (Throw err, w1) ->
  (forall l, l ∈ dom (heap w) -> heap w1 !! l = heap w !! l)
  /\ logs w1
     = logs w ++ [record Debug "Session bootstrap: Loading memory context" []].
Proof.
  intros Hb. pose proof (bootstrap_body_run env event w) as Hrun.
  cbv zeta in Hrun. rewrite Hb in Hrun.
  assert (Hw2 : forall w2,
             w2 = (if truthy (prop_of (heap w) event "context")
                   then add_logs w [record Debug "Session bootstrap: Loading memory context" []]
                   else set_heap
                          (add_logs w [record Debug "Session bootstrap: Loading memory context" []])
                          (<[fresh (dom (heap w)) := ∅]> (heap w))) ->
             forall calls,
               w1 = add_calls w2 calls ->
               (forall l, l ∈ dom (heap w) -> heap w1 !! l = heap w !! l)
               /\ logs w1
                  = logs w ++ [record Debug "Session bootstrap: Loading memory context" []]).
  { intros w2 -> calls ->.
    destruct (truthy (prop_of (heap w) event "context")); simpl; split; try reflexivity.
    intros l Hl. apply lookup_insert_ne. intros <-. now apply is_fresh in Hl. }
  destruct (workspace_of env _ _) as [workspaceDir|e].
  - destruct (path_join env [workspaceDir; lit "memory"]) as [memoryDir|e].
    + destruct Hrun as [calls Hrun].
      destruct (if truthy (prop_of (heap w) event "context") then _ else VRef _);
        try discriminate Hrun;
        injection Hrun as _ ->; eapply Hw2; reflexivity.
    + injection Hrun as _ ->. eapply (Hw2 _ eq_refl []). now rewrite add_calls_nil.
  - injection Hrun as _ ->. eapply (Hw2 _ eq_refl []). now rewrite add_calls_nil.
Qed.

End Boundary.

(** C8.  An event whose type is not "agent" or whose action is not
    "bootstrap" is returned from at once: the world is the one the
    handler was called in, so no file-system call was made, no log record
    was emitted, and no object, the context among them, was touched. *)
Theorem rejected_event_has_no_effect env event w :
  prop_of (heap w) event "type" <> VStr (lit "agent")
  \/ prop_of (heap w) event "action" <> VStr (lit "bootstrap") ->
  bootstrapSession env event w = (Ret tt, w)
  /\ fs_calls (final_world env event w) = fs_calls w
  /\ logs (final_world env event w) = logs w
  /\ heap (final_world env event w) = heap w.
Proof.
  intros H. unfold final_world.
  rewrite (bootstrapSession_rejected env event w H). repeat split.
Qed.

Lemma rejected_event_has_no_effect_witness :
  bootstrapSession full_disk 1%positive (sample_world "message" "bootstrap" (VRef 2%positive))
  = (Ret tt, sample_world "message" "bootstrap" (VRef 2%positive)).
Proof.
  apply (rejected_event_has_no_effect full_disk 1%positive
           (sample_world "message" "bootstrap" (VRef 2%positive))).
  left. vm_compute. discriminate.
Defined.

(** C1.  For an admitted event the handler returns, whatever the
    resolvers, [path.join] and the file system do.  When its [try] block
    throws, every object that existed is unchanged, the context among
    them, and the failure is logged with the string form of the error. *)
Theorem bootstrap_never_raises env event w :
  admitted (heap w) event ->
  exists w',
    bootstrapSession env event w = (Ret tt, w')
    /\ forall err w1,
         bootstrap_body env event w = (Throw err, w1) ->
         (forall l, l ∈ dom (heap w) -> heap w' !! l = heap w !! l)
         /\ logs w'
            = logs w
              ++ [record Debug "Session bootstrap: Loading memory context" [];
                  record Error "Failed to bootstrap session memory"
                    [("error", VStr err)]].
Proof.
  intros Hadm. rewrite (bootstrapSession_admitted env event w Hadm).
  unfold try_catch.
  destruct (bootstrap_body env event w) as [[[]|e] w1] eqn:Hb.
  - exists w1. split; [reflexivity | discriminate].
  - eexists. split; [reflexivity|].
    intros err w1' Heq. injection Heq as <- <-.
    destruct (body_throw_frame env event w e w1 Hb) as [Hheap Hlogs].
    split; [exact Hheap|].
    unfold add_logs. cbn [logs]. rewrite Hlogs, <- app_assoc. reflexivity.
Qed.

Lemma bootstrap_never_raises_witness :
  exists w',
    bootstrapSession broken_env 1%positive
      (sample_world "agent" "bootstrap" (VRef 2%positive)) = (Ret tt, w')
    /\ heap w' !! 2%positive = Some ∅
    /\ logs w'
       = [record Debug "Session bootstrap: Loading memory context" [];
          record Error "Failed to bootstrap session memory"
            [("error", VStr (lit "Error: bad session key"))]].
Proof.
  destruct (bootstrap_never_raises broken_env 1%positive
              (sample_world "agent" "bootstrap" (VRef 2%positive)))
    as [w' [Hrun Hthrow]].
  - split; vm_compute; reflexivity.
  - exists w'. split; [exact Hrun|].
    edestruct (Hthrow (lit "Error: bad session key")) as [Hheap Hlogs].
    + vm_compute. reflexivity.
    + split; [|exact Hlogs].
      rewrite Hheap; [reflexivity|]. vm_compute. reflexivity.
Defined.

(** ** Sections, their order and their sizes *)

(** C4, as the code has it.  The assembled block is made of a profile
    section, an active-context section and a recent-memories section;
    a text section is there exactly when its file was read and is not
    empty, the recent-memories section exactly when at least one entry
    was loaded, and a section that is there is its heading, the truncated
    content and the blank separator. *)
Theorem sections_follow_nonempty_sources
    (userProfile activeContext : option jsstring) (recentMemories : list MemoryEntry) :
  full_context userProfile activeContext recentMemories
  = join [10%N]
      (rendered_text "## User Profile (Jeeves)" 1000 userProfile
       ++ rendered_text "## Active Context" 1000 activeContext
       ++ rendered_recent recentMemories)
  /\ (rendered_text "## User Profile (Jeeves)" 1000 userProfile <> []
      <-> exists c, userProfile = Some c /\ c <> [])
  /\ (rendered_text "## Active Context" 1000 activeContext <> []
      <-> exists c, activeContext = Some c /\ c <> [])
  /\ (rendered_recent recentMemories <> [] <-> recentMemories <> [])
  /\ (forall c, c <> [] ->
        rendered_text "## User Profile (Jeeves)" 1000 (Some c)
        = [lit "## User Profile (Jeeves)"; firstn 1000 c; lit ""]
        /\ rendered_text "## Active Context" 1000 (Some c)
           = [lit "## Active Context"; firstn 1000 c; lit ""]).
Proof.
  split; [|split; [|split; [|split]]].
  - unfold full_context. now rewrite build_context_parts_layout.
  - apply rendered_text_nonempty.
  - apply rendered_text_nonempty.
  - destruct recentMemories; simpl; split; easy.
  - intros [|c s] Hne; [easy|]. split; reflexivity.
Qed.

Lemma sections_follow_nonempty_sources_witness :
  rendered_text "## User Profile (Jeeves)" 1000 (Some (lit "likes tea"))
  = [lit "## User Profile (Jeeves)"; lit "likes tea"; lit ""].
Proof.
  destruct (sections_follow_nonempty_sources (Some (lit "likes tea")) None [])
    as (_ & _ & _ & _ & H).
  destruct (H (lit "likes tea")) as [Hp _]; [discriminate|].
  exact Hp.
Defined.

(** The claim C4 as it is written fails on a profile that is readable
    and empty: the read succeeds, yet no heading is rendered. *)
Lemma empty_profile_has_no_section :
  read_text_of blank_profile_disk (lit "/state/workspace") "jeeves-profile.md" = Some []
  /\ prop_of
       (heap (final_world blank_profile_disk 1%positive
                (sample_world "agent" "bootstrap" (VRef 2%positive))))
       2%positive "memoryContext"
     = VStr (lit "## Active Context" ++ [10%N] ++ lit "ship it" ++ [10%N])
  /\ includes
       (memory_context_of blank_profile_disk
          (lit "/state/workspace") (lit "/state/workspace/memory"))
       (lit "## User Profile (Jeeves)") = false.
Proof. vm_compute. repeat split. Qed.

(** C5.  The profile and the active context enter the block through
    their first 1000 code units and each entry through its first 500,
    cut wherever that falls; a profile of 1500 units contributes its
    first 1000 and nothing else, whatever the other sources are. *)
Theorem truncation_limits
    (userProfile activeContext : option jsstring) (recentMemories : list MemoryEntry) :
  (forall c, userProfile = Some c -> c <> [] ->
     build_context_parts userProfile activeContext recentMemories
     = [lit "## User Profile (Jeeves)"; firstn 1000 c; lit ""]
       ++ build_context_parts None activeContext recentMemories)
  /\ (forall c, activeContext = Some c -> c <> [] ->
        build_context_parts userProfile activeContext recentMemories
        = build_context_parts userProfile None []
          ++ [lit "## Active Context"; firstn 1000 c; lit ""]
          ++ build_context_parts None None recentMemories)
  /\ (recentMemories <> [] ->
        build_context_parts userProfile activeContext recentMemories
        = build_context_parts userProfile activeContext []
          ++ lit "## Recent Conversations"
             :: concat (map (fun m => [lit "### " ++ filename m;
                                       firstn 500 (content m);
                                       lit ""]) recentMemories))
  /\ (forall c, userProfile = Some c -> length c = 1500 ->
        full_context userProfile activeContext recentMemories
        = lit "## User Profile (Jeeves)" ++ [10%N] ++ firstn 1000 c ++ [10%N]
          ++ join [10%N] (lit "" :: build_context_parts None activeContext recentMemories)
        /\ length (firstn 1000 c) = 1000
        /\ c = firstn 1000 c ++ skipn 1000 c).
Proof.
  rewrite !build_context_parts_layout. unfold full_context.
  rewrite !build_context_parts_layout.
  split; [|split; [|split]].
  - intros [|c s] -> Hne; [easy|]. reflexivity.
  - intros [|c s] -> Hne; [easy|]. simpl. now rewrite !app_nil_r.
  - destruct recentMemories as [|m ms]; [easy|]. intros _.
    simpl rendered_recent at 2. rewrite !app_nil_r, <- app_assoc. reflexivity.
  - intros c -> Hlen. destruct c as [|c s]; [discriminate Hlen|].
    split; [|split].
    + cbn [rendered_text text_section app join]. reflexivity.
    + rewrite length_firstn. lia.
    + symmetry. apply firstn_skipn.
Qed.

Lemma truncation_limits_witness :
  full_context (Some sample_profile) None []
  = lit "## User Profile (Jeeves)" ++ [10%N] ++ repeat 120%N 1000 ++ [10%N]
  /\ length (full_context (Some sample_profile) None []) = 1026.
Proof.
  destruct (truncation_limits (Some sample_profile) None [])
    as (_ & _ & _ & H).
  destruct (H sample_profile eq_refl) as [Hfull _]; [vm_compute; reflexivity|].
  rewrite Hfull. split; vm_compute; reflexivity.
Defined.

(** C9.  Whatever is present, the block is the profile section, then
    the active-context section, then the recent-memories heading with
    one entry per loaded file, the file names descending, most recent
    first. *)
Theorem section_order env workspaceDir memoryDir :
  let userProfile := read_text_of env workspaceDir "jeeves-profile.md" in
  let activeContext := read_text_of env workspaceDir "active-context.md" in
  let recentMemories := recent_memories_of env memoryDir (Some 3%Z) in
  memory_context_of env workspaceDir memoryDir
  = join [10%N]
      (rendered_text "## User Profile (Jeeves)" 1000 userProfile
       ++ rendered_text "## Active Context" 1000 activeContext
       ++ match recentMemories with
          | [] => []
          | _ :: _ =>
              lit "## Recent Conversations" :: concat (map entry_section recentMemories)
          end)
  /\ descending (map filename recentMemories).
Proof.
  intros userProfile activeContext recentMemories. split.
  - unfold memory_context_of, full_context.
    now rewrite build_context_parts_layout.
  - apply recent_memories_descending.
Qed.

(** ** Publishing *)

(** C6.  With a context object and a workspace that resolves, the handler
    returns, [hasMemory] is [true] and [memoryContext] is the assembled
    text, whatever the reads did; when the directory listing and both
    file reads fail, that text is the empty string. *)
Theorem missing_memory_directory env event w c workspaceDir memoryDir :
  admitted (heap w) event ->
  prop_of (heap w) event "context" = VRef c ->
  workspace_of env (prop_of (heap w) c "cfg") (prop_of (heap w) event "sessionKey")
  = Ret workspaceDir ->
  path_join env [workspaceDir; lit "memory"] = Ret memoryDir ->
  exists w',
    bootstrapSession env event w = (Ret tt, w')
    /\ prop_of (heap w') c "hasMemory" = VBool true
    /\ prop_of (heap w') c "memoryContext"
       = VStr (memory_context_of env workspaceDir memoryDir)
    /\ ((exists e, fs_readdir env memoryDir = Throw e) ->
        read_text_of env workspaceDir "jeeves-profile.md" = None ->
        read_text_of env workspaceDir "active-context.md" = None ->
        prop_of (heap w') c "memoryContext" = VStr (lit "")).
Proof.
  intros Hadm Hctx Hws Hmd.
  destruct (handler_publishes env event w c workspaceDir memoryDir Hadm Hctx Hws Hmd)
    as (w' & Hrun & Hheap & _).
  exists w'. rewrite Hheap. split; [exact Hrun|].
  split; [apply published_hasMemory|].
  split; [apply published_memoryContext|].
  intros [e He] Hp Ha. rewrite published_memoryContext.
  unfold memory_context_of, recent_memories_of. now rewrite He, Hp, Ha.
Qed.

Lemma missing_memory_directory_witness :
  exists w',
    bootstrapSession bare_disk 1%positive
      (sample_world "agent" "bootstrap" (VRef 2%positive)) = (Ret tt, w')
    /\ prop_of (heap w') 2%positive "hasMemory" = VBool true
    /\ prop_of (heap w') 2%positive "memoryContext" = VStr (lit "").
Proof.
  destruct (missing_memory_directory bare_disk 1%positive
              (sample_world "agent" "bootstrap" (VRef 2%positive)) 2%positive
              (lit "/state/workspace") (lit "/state/workspace/memory"))
    as (w' & Hrun & Hflag & _ & Hempty).
  - split; vm_compute; reflexivity.
  - vm_compute. reflexivity.
  - vm_compute. reflexivity.
  - vm_compute. reflexivity.
  - exists w'. split; [exact Hrun|]. split; [exact Hflag|].
    apply Hempty; [exists enoent|..]; vm_compute; reflexivity.
Defined.

(** C10.  When [event.context] is [undefined] or [null] the handler
    returns; every object that existed, the event among them, is
    unchanged; what is published goes into an object created at a
    location nobody else holds. *)
Theorem absent_context_is_not_published env event w :
  admitted (heap w) event ->
  prop_of (heap w) event "context" = VUndef
  \/ prop_of (heap w) event "context" = VNull ->
  exists w',
    bootstrapSession env event w = (Ret tt, w')
    /\ (forall l, l ∈ dom (heap w) -> heap w' !! l = heap w !! l)
    /\ (fresh (dom (heap w)) ∉ dom (heap w))
    /\ forall workspaceDir memoryDir,
         workspace_of env VUndef (prop_of (heap w) event "sessionKey") = Ret workspaceDir ->
         path_join env [workspaceDir; lit "memory"] = Ret memoryDir ->
         heap w'
         = <[(fresh (dom (heap w)))
             := published (memory_context_of env workspaceDir memoryDir) ∅]> (heap w).
Proof.
  intros Hadm Hctx.
  assert (Hfalsy : truthy (prop_of (heap w) event "context") = false)
    by (destruct Hctx as [-> | ->]; reflexivity).
  assert (Hfresh : heap w !! fresh (dom (heap w)) = None)
    by apply not_elem_of_dom, is_fresh.
  rewrite (bootstrapSession_admitted env event w Hadm). unfold try_catch.
  pose proof (bootstrap_body_run env event w) as Hrun. cbv zeta in Hrun.
  rewrite Hfalsy in Hrun.
  change (heap (set_heap _ ?h)) with h in Hrun.
  assert (Hcfg : prop_of (<[fresh (dom (heap w)) := ∅]> (heap w))
                   (fresh (dom (heap w))) "cfg" = VUndef).
  { unfold prop_of, object_at. now rewrite lookup_insert_eq. }
  assert (Hobj : object_at (<[fresh (dom (heap w)) := ∅]> (heap w))
                   (fresh (dom (heap w))) = ∅).
  { unfold object_at. now rewrite lookup_insert_eq. }
  rewrite Hcfg in Hrun.
  assert (Hold : forall l, l ∈ dom (heap w) ->
                   forall o, <[fresh (dom (heap w)) := o]> (heap w) !! l = heap w !! l).
  { intros l Hl o. apply lookup_insert_ne. intros <-. now apply is_fresh in Hl. }
  destruct (workspace_of env VUndef _) as [workspaceDir|e].
  - destruct (path_join env [workspaceDir; lit "memory"]) as [memoryDir|e] eqn:Hpj.
    + destruct Hrun as [calls ->]. rewrite Hobj, insert_insert_eq.
      eexists. split; [reflexivity|]. cbn [heap add_logs set_heap].
      split; [intros l Hl; now apply Hold|].
      split; [apply is_fresh|].
      intros ws md Hws Hmd'. injection Hws as <-.
      assert (md = memoryDir) as -> by congruence. reflexivity.
    + rewrite Hrun. eexists. split; [reflexivity|]. cbn [heap add_logs set_heap log].
      split; [intros l Hl; now apply Hold|].
      split; [apply is_fresh|]. intros ws md Hws Hmd'. injection Hws as <-. congruence.
  - rewrite Hrun. eexists. split; [reflexivity|]. cbn [heap add_logs set_heap log].
    split; [intros l Hl; now apply Hold|].
    split; [apply is_fresh|]. intros ws md Hws. discriminate Hws.
Qed.

Lemma absent_context_is_not_published_witness :
  exists w',
    bootstrapSession full_disk 1%positive (sample_world "agent" "bootstrap" VUndef)
    = (Ret tt, w')
    /\ heap w' !! 1%positive = Some (event_object "agent" "bootstrap" VUndef)
    /\ heap w' !! 2%positive = Some ∅.
Proof.
  destruct (absent_context_is_not_published full_disk 1%positive
              (sample_world "agent" "bootstrap" VUndef))
    as (w' & Hrun & Hold & _).
  - split; vm_compute; reflexivity.
  - left. vm_compute. reflexivity.
  - exists w'. split; [exact Hrun|].
    split; (rewrite Hold; [reflexivity | vm_compute; reflexivity]).
Defined.

(** ** The readers fail one by one *)

Section Independence.
Variable env : Env.

Lemma load_entries_throw memoryDir files f :
  In f files ->
  (exists e, load_entry env memoryDir f = Throw e) ->
  exists e, load_entries env memoryDir files = Throw e.
Proof.
  intros Hin [e He]. induction files as [|g files IH]; [easy|].
  simpl. destruct Hin as [-> | Hin].
  - rewrite He. now exists e.
  - destruct (load_entry env memoryDir g); [|eauto].
    destruct (IH Hin) as [e' ->]. now exists e'.
Qed.

Lemma join_nonempty sep p rest : p <> [] -> join sep (p :: rest) <> [].
Proof.
  intros Hp. destruct rest; simpl; [exact Hp|].
  destruct p; [easy | discriminate].
Qed.

Lemma rendered_sections_nonempty (userProfile activeContext : option jsstring) :
  (exists s, (userProfile = Some s \/ activeContext = Some s) /\ s <> []) ->
  join [10%N]
    (rendered_text "## User Profile (Jeeves)" 1000 userProfile
     ++ rendered_text "## Active Context" 1000 activeContext) <> [].
Proof.
  intros (s & Hs & Hne).
  destruct userProfile as [[|c p]|]; simpl rendered_text at 1.
  - destruct Hs as [Hs | ->]; [now injection Hs as <-|].
    destruct s; [easy|]. now apply join_nonempty.
  - now apply join_nonempty.
  - destruct Hs as [Hs | ->]; [discriminate|].
    destruct s; [easy|]. now apply join_nonempty.
Qed.

End Independence.

(** C7, as the code has it.  When one of the selected dated files cannot
    be read, no recent memory is loaded at all; the profile and
    active-context sections are what they would be anyway, the handler
    still returns and publishes them, and the text is not empty as soon
    as the profile or the active context is not empty. *)
Theorem readers_fail_independently env event w c workspaceDir memoryDir files f :
  admitted (heap w) event ->
  prop_of (heap w) event "context" = VRef c ->
  workspace_of env (prop_of (heap w) c "cfg") (prop_of (heap w) event "sessionKey")
  = Ret workspaceDir ->
  path_join env [workspaceDir; lit "memory"] = Ret memoryDir ->
  fs_readdir env memoryDir = Ret files ->
  In f (select_recent files 3) ->
  (exists e, load_entry env memoryDir f = Throw e) ->
  let userProfile := read_text_of env workspaceDir "jeeves-profile.md" in
  let activeContext := read_text_of env workspaceDir "active-context.md" in
  recent_memories_of env memoryDir (Some 3%Z) = []
  /\ exists w',
       bootstrapSession env event w = (Ret tt, w')
       /\ prop_of (heap w') c "hasMemory" = VBool true
       /\ prop_of (heap w') c "memoryContext"
          = VStr (join [10%N]
                    (rendered_text "## User Profile (Jeeves)" 1000 userProfile
                     ++ rendered_text "## Active Context" 1000 activeContext))
       /\ ((exists s, (userProfile = Some s \/ activeContext = Some s) /\ s <> []) ->
           prop_of (heap w') c "memoryContext" <> VStr (lit "")).
Proof.
  intros Hadm Hctx Hws Hmd Hdir Hin Hbad userProfile activeContext.
  assert (Hrecent : recent_memories_of env memoryDir (Some 3%Z) = []).
  { unfold recent_memories_of. rewrite Hdir. cbn [default from_option id].
    destruct (load_entries_throw env memoryDir _ f Hin Hbad) as [e ->]. reflexivity. }
  split; [exact Hrecent|].
  destruct (handler_publishes env event w c workspaceDir memoryDir Hadm Hctx Hws Hmd)
    as (w' & Hrun & Hheap & _).
  exists w'. rewrite Hheap, published_hasMemory, published_memoryContext.
  assert (Hfull : memory_context_of env workspaceDir memoryDir
                  = join [10%N]
                      (rendered_text "## User Profile (Jeeves)" 1000 userProfile
                       ++ rendered_text "## Active Context" 1000 activeContext)).
  { unfold memory_context_of, full_context.
    rewrite build_context_parts_layout, Hrecent. simpl rendered_recent.
    now rewrite app_nil_r. }
  rewrite Hfull. repeat split; [exact Hrun|].
  intros Hsome Heq. injection Heq as Heq.
  now apply (rendered_sections_nonempty userProfile activeContext Hsome).
Qed.

Lemma readers_fail_independently_witness :
  exists w',
    bootstrapSession corrupt_disk 1%positive
      (sample_world "agent" "bootstrap" (VRef 2%positive)) = (Ret tt, w')
    /\ prop_of (heap w') 2%positive "memoryContext"
       = VStr (lit "## User Profile (Jeeves)" ++ [10%N] ++ lit "likes tea" ++ [10%N; 10%N]
               ++ lit "## Active Context" ++ [10%N] ++ lit "ship it" ++ [10%N]).
Proof.
  destruct (readers_fail_independently corrupt_disk 1%positive
              (sample_world "agent" "bootstrap" (VRef 2%positive)) 2%positive
              (lit "/state/workspace") (lit "/state/workspace/memory")
              listing_2024 (lit "2024-03-15-b.md"))
    as (_ & w' & Hrun & _ & Hctx & _).
  - split; vm_compute; reflexivity.
  - vm_compute. reflexivity.
  - vm_compute. reflexivity.
  - vm_compute. reflexivity.
  - vm_compute. reflexivity.
  - vm_compute. left. reflexivity.
  - exists enoent. vm_compute. reflexivity.
  - exists w'. split; [exact Hrun|]. rewrite Hctx. vm_compute. reflexivity.
Defined.

(** The claim C7 as it is written fails when the profile and the active
    context are readable and empty: both reads succeed, a dated file
    cannot be read, and the published text is the empty string. *)
Lemma readable_empty_sources_give_empty_context :
  read_text_of blank_disk (lit "/state/workspace") "jeeves-profile.md" = Some (lit "")
  /\ read_text_of blank_disk (lit "/state/workspace") "active-context.md" = Some (lit "")
  /\ select_recent [lit "2024-03-15-b.md"] 3 = [lit "2024-03-15-b.md"]
  /\ load_entry blank_disk (lit "/state/workspace/memory") (lit "2024-03-15-b.md")
     = Throw enoent
  /\ fst (bootstrapSession blank_disk 1%positive
            (sample_world "agent" "bootstrap" (VRef 2%positive))) = Ret tt
  /\ prop_of
       (heap (final_world blank_disk 1%positive
                (sample_world "agent" "bootstrap" (VRef 2%positive))))
       2%positive "memoryContext"
     = VStr (lit "").
Proof. vm_compute. repeat split. Qed.

(** ** Selecting the recent memories *)

(** C2.  From a directory listing the names kept are those that end in
    ".md" and start with four digits, a dash, two digits, a dash and two
    digits; they are put in descending order and the first N are taken,
    three when no count is given.  [getRecentMemories] returns, with one
    entry per taken name when they all load.  A directory that holds
    2024-01-01-a.md, 2024-03-15-b.md, 2024-02-10-c.md and notes.txt, in
    whatever order it is listed, gives 2024-03-15-b.md, 2024-02-10-c.md,
    2024-01-01-a.md. *)
Theorem recent_selection env memoryDir files (count : option nat) w :
  fs_readdir env memoryDir = Ret files ->
  let n := default 3%nat count in
  exists kept,
    Permutation kept (List.filter is_memory_file files)
    /\ (forall f, In f kept <-> In f files /\ dated_md_name f)
    /\ descending kept
    /\ select_recent files (Z.of_nat n) = firstn n kept
    /\ (exists ms w',
          getRecentMemories env memoryDir (Z.of_nat <$> count) w = (Ret ms, w')
          /\ forall loaded,
               load_entries env memoryDir (firstn n kept) = Ret loaded ->
               ms = loaded /\ map filename ms = firstn n kept)
    /\ (Permutation files listing_2024 ->
        n = 3%nat ->
        select_recent files 3
        = [lit "2024-03-15-b.md"; lit "2024-02-10-c.md"; lit "2024-01-01-a.md"]).
Proof.
  intros Hdir n.
  exists (rev (array_sort (List.filter is_memory_file files))).
  assert (Hperm : Permutation (rev (array_sort (List.filter is_memory_file files)))
                    (List.filter is_memory_file files)).
  { rewrite <- Permutation_rev. apply array_sort_perm. }
  split; [exact Hperm|]. split; [|split; [|split; [|split]]].
  - intros f. rewrite <- is_memory_file_spec, <- filter_In. split; intros H.
    + now apply (Permutation_in _ Hperm).
    + now apply (Permutation_in _ (Permutation_sym Hperm)).
  - apply rev_descending, array_sort_ascending.
  - apply select_recent_firstn.
  - destruct (getRecentMemories_run env memoryDir (Z.of_nat <$> count) w) as [calls Hrun].
    eexists. eexists. split; [exact Hrun|].
    intros loaded Hloaded. unfold recent_memories_of. rewrite Hdir.
    replace (default 3%Z (Z.of_nat <$> count)) with (Z.of_nat n)
      by (subst n; now destruct count).
    rewrite select_recent_firstn, Hloaded.
    split; [reflexivity|]. now apply load_entries_ok in Hloaded as [-> _].
  - intros Hlisting _. now rewrite (select_recent_perm _ _ 3%Z Hlisting).
Qed.

Lemma recent_selection_witness :
  exists ms w',
    getRecentMemories full_disk (lit "/state/workspace/memory") None
      (sample_world "agent" "bootstrap" (VRef 2%positive)) = (Ret ms, w')
    /\ map filename ms
       = [lit "2024-03-15-b.md"; lit "2024-02-10-c.md"; lit "2024-01-01-a.md"].
Proof.
  destruct (recent_selection full_disk (lit "/state/workspace/memory") listing_2024 None
              (sample_world "agent" "bootstrap" (VRef 2%positive)))
    as (kept & _ & _ & _ & Hsel & (ms & w' & Hrun & Hload) & _).
  - vm_compute. reflexivity.
  - exists ms, w'. split; [exact Hrun|].
    cbn [default from_option id] in Hsel, Hload. rewrite <- Hsel in Hload.
    edestruct Hload as [_ Hnames]; [vm_compute; reflexivity|].
    rewrite Hnames. vm_compute. reflexivity.
Defined.

(** ** The [date] of an entry *)

(** For a name the filter keeps, [split("-")[0]] is its first four code
    units, the year, and never its ten-unit date prefix. *)
Lemma date_of_memory_file f :
  is_memory_file f = true ->
  split_head 45 f = firstn 4 f /\ split_head 45 f <> firstn 10 f.
Proof.
  intros H. apply is_memory_file_spec in H as [Hdate _].
  destruct Hdate as (y1 & y2 & y3 & y4 & m1 & m2 & d1 & d2 & rest & -> & Hd).
  repeat (apply Forall_cons_iff in Hd as [? Hd]).
  unfold digit in *. simpl.
  repeat match goal with
         | |- context [(?y =? 45)%N] =>
             destruct (N.eqb_spec y 45); [lia|]
         end.
  split; [reflexivity | discriminate].
Qed.

(** C3.  On a directory whose dated files are 2024-03-15-b.md,
    2024-02-10-c.md and 2024-01-01-a.md, every entry that
    [getRecentMemories] builds has the [date] "2024": the year, not the
    date "2024-03-15" its file name starts with. *)
Theorem date_holds_the_year_only :
  map filename (recent_memories_of full_disk (lit "/state/workspace/memory") (Some 3%Z))
  = [lit "2024-03-15-b.md"; lit "2024-02-10-c.md"; lit "2024-01-01-a.md"]
  /\ map date (recent_memories_of full_disk (lit "/state/workspace/memory") (Some 3%Z))
     = [lit "2024"; lit "2024"; lit "2024"]
  /\ lit "2024" <> firstn 10 (lit "2024-03-15-b.md")
  /\ firstn 10 (lit "2024-03-15-b.md") = lit "2024-03-15".
Proof. vm_compute. repeat split. discriminate. Qed.

(** * Further properties of the handler *)

(** ** Runs, with their calls *)

Section ExactRuns.
Variable env : Env.

Lemma load_loop_calls memoryDir files acc w :
  for_of files acc
    (fun memories file =>
       p ← call (path_join env [memoryDir; file]);
       content ← readFile env p;
       let date := split_head 45 file in
       mret (push memories
               [{| date := date; content := content; filename := file |}])) w
  = (match load_entries env memoryDir files with
     | Ret ms => Ret (acc ++ ms)
     | Throw e => Throw e
     end, add_calls w (entries_calls env memoryDir files)).
Proof.
  revert acc w. induction files as [|f files IH]; intros acc w.
  - simpl. now rewrite add_calls_nil, app_nil_r.
  - simpl. unfold load_entry.
    unfold mbind at 1. unfold M_bind at 1.
    unfold mbind at 1. unfold M_bind at 1. unfold call at 1.
    destruct (path_join env [memoryDir; f]) as [p|e].
    + unfold mbind at 1. unfold M_bind at 1. unfold readFile at 1.
      destruct (fs_readFile env p) as [c|e].
      * unfold mret at 1. unfold M_ret at 1.
        etransitivity; [apply IH|]. rewrite add_calls_app. simpl.
        destruct (load_entries env memoryDir files); [|reflexivity].
        unfold push. now rewrite <- app_assoc.
      * reflexivity.
    + now rewrite add_calls_nil.
Qed.

Lemma getRecentMemories_calls memoryDir count w :
  getRecentMemories env memoryDir count w
  = (Ret (recent_memories_of env memoryDir count),
     add_calls w (recent_calls env memoryDir count)).
Proof.
  unfold getRecentMemories, recent_memories_of, recent_calls, try_catch.
  unfold mbind at 1. unfold M_bind at 1. unfold readdir.
  destruct (fs_readdir env memoryDir) as [files|e]; [|reflexivity].
  pose proof (load_loop_calls memoryDir (select_recent files (default 3%Z count)) []
                (add_calls w [Readdir memoryDir])) as Hc.
  cbv zeta in Hc |- *. rewrite Hc, add_calls_app.
  destruct (load_entries env memoryDir _); reflexivity.
Qed.

Lemma read_text_calls workspaceDir (name : string) w :
  try_catch
    (p ← call (path_join env [workspaceDir; lit "memory"; lit name]);
     c ← readFile env p;
     mret (Some c))
    (fun _ => mret None) w
  = (Ret (read_text_of env workspaceDir name),
     add_calls w (text_calls env workspaceDir name)).
Proof.
  unfold try_catch, read_text_of, text_calls, mbind, M_bind, call, readFile, mret, M_ret.
  destruct (path_join env _) as [p|e].
  - destruct (fs_readFile env p); reflexivity.
  - now rewrite add_calls_nil.
Qed.

(** The run of the handler on an admitted event whose context is an
    object and whose workspace resolves, in full: the heap, the log and
    the calls it ends with. *)
Lemma handler_run_exact event w c workspaceDir memoryDir :
  admitted (heap w) event ->
  prop_of (heap w) event "context" = VRef c ->
  workspace_of env (prop_of (heap w) c "cfg") (prop_of (heap w) event "sessionKey")
  = Ret workspaceDir ->
  path_join env [workspaceDir; lit "memory"] = Ret memoryDir ->
  bootstrapSession env event w
  = (Ret tt,
     {| heap := <[c := published (memory_context_of env workspaceDir memoryDir)
                         (object_at (heap w) c)]> (heap w);
        logs := logs w ++ success_logs env workspaceDir memoryDir;
        fs_calls := fs_calls w ++ handler_calls env workspaceDir memoryDir |}).
Proof.
  intros Hadm Hctx Hws Hmd.
  rewrite (bootstrapSession_admitted env event w Hadm). unfold try_catch, bootstrap_body.
  erewrite bind_ret by reflexivity.
  erewrite bind_ret by reflexivity.
  change (prop_of (heap (add_logs w _)) event "context")
    with (prop_of (heap w) event "context").
  rewrite Hctx. cbn [truthy].
  erewrite bind_ret by reflexivity.
  erewrite bind_ret by reflexivity.
  erewrite bind_ret by reflexivity.
  change (heap (add_logs w ?r)) with (heap w).
  unfold workspace_of in Hws.
  destruct (resolveAgentIdFromSessionKey env _) as [agentId|e]; [|discriminate Hws].
  erewrite bind_ret by reflexivity.
  erewrite bind_ret.
  2:{ destruct (truthy (prop_of (heap w) c "cfg")).
      - unfold call. rewrite Hws. reflexivity.
      - unfold mbind, M_bind, call.
        destruct (resolveStateDir env); [|discriminate Hws].
        rewrite Hws. reflexivity. }
  erewrite bind_ret by (unfold call; rewrite Hmd; reflexivity).
  erewrite bind_ret by apply getRecentMemories_calls.
  erewrite bind_ret by apply read_text_calls.
  erewrite bind_ret by apply read_text_calls.
  erewrite bind_ret by reflexivity.
  erewrite bind_ret by reflexivity.
  erewrite bind_ret by reflexivity.
  unfold log, add_logs, set_heap, add_calls, published, success_logs, handler_calls,
    memory_context_of.
  cbn [heap logs fs_calls]. f_equal. f_equal.
  - unfold object_at at 1. rewrite lookup_insert_eq. cbn [default].
    now rewrite insert_insert_eq.
  - now rewrite <- !app_assoc.
  - now rewrite <- !app_assoc.
Qed.

End ExactRuns.

(** ** More on the selection *)

Section Selection.
Variable env : Env.

Lemma load_entries_with_readdir listing memoryDir files :
  load_entries (with_readdir env listing) memoryDir files
  = load_entries env memoryDir files.
Proof.
  induction files as [|f files IH]; [reflexivity|].
  simpl. rewrite IH. reflexivity.
Qed.

Lemma select_recent_length files (n : nat) :
  length (select_recent files (Z.of_nat n)) <= n.
Proof. rewrite select_recent_firstn, length_firstn. lia. Qed.

Lemma load_entries_read memoryDir files ms :
  load_entries env memoryDir files = Ret ms ->
  Forall (fun m => exists p,
            path_join env [memoryDir; filename m] = Ret p
            /\ fs_readFile env p = Ret (content m)) ms.
Proof.
  revert ms. induction files as [|f files IH]; simpl; intros ms H.
  - injection H as <-. constructor.
  - unfold load_entry in H.
    destruct (path_join env [memoryDir; f]) as [p|] eqn:Hp; [|discriminate].
    destruct (fs_readFile env p) as [c|] eqn:Hc; [|discriminate].
    destruct (load_entries env memoryDir files) as [ms'|]; [|discriminate].
    injection H as <-. constructor; [|now apply IH].
    exists p. now split.
Qed.

Lemma load_entries_throw_inv memoryDir files e :
  load_entries env memoryDir files = Throw e ->
  exists f e', In f files /\ load_entry env memoryDir f = Throw e'.
Proof.
  revert e. induction files as [|f files IH]; intros e; simpl; [discriminate|].
  destruct (load_entry env memoryDir f) as [m|e'] eqn:Hf.
  - destruct (load_entries env memoryDir files) as [ms|e'']; [discriminate|].
    intros _. destruct (IH e'' eq_refl) as (g & e' & Hg & He'). exists g, e'. auto.
  - intros _. exists f, e'. auto.
Qed.

End Selection.

(** X1.  [readdir] promises no order, and none is needed: listing the same
    names in another order loads the same recent memories and gives the
    same text. *)
Theorem listing_order_is_irrelevant env workspaceDir memoryDir files files' :
  fs_readdir env memoryDir = Ret files ->
  Permutation files files' ->
  recent_memories_of (with_readdir env (fun _ => Ret files')) memoryDir (Some 3%Z)
  = recent_memories_of env memoryDir (Some 3%Z)
  /\ memory_context_of (with_readdir env (fun _ => Ret files')) workspaceDir memoryDir
     = memory_context_of env workspaceDir memoryDir.
Proof.
  intros Hdir Hperm.
  assert (Hrecent : recent_memories_of (with_readdir env (fun _ => Ret files'))
                      memoryDir (Some 3%Z)
                    = recent_memories_of env memoryDir (Some 3%Z)).
  { unfold recent_memories_of. cbn [fs_readdir with_readdir]. rewrite Hdir.
    rewrite load_entries_with_readdir.
    now rewrite (select_recent_perm files' files _ (Permutation_sym Hperm)). }
  split; [exact Hrecent|].
  unfold memory_context_of. rewrite Hrecent. reflexivity.
Qed.

Lemma listing_order_is_irrelevant_witness :
  memory_context_of (with_readdir full_disk (fun _ => Ret (rev listing_2024)))
    (lit "/state/workspace") (lit "/state/workspace/memory")
  = memory_context_of full_disk (lit "/state/workspace") (lit "/state/workspace/memory").
Proof.
  apply (listing_order_is_irrelevant full_disk (lit "/state/workspace")
           (lit "/state/workspace/memory") listing_2024 (rev listing_2024)).
  - vm_compute. reflexivity.
  - apply Permutation_rev.
Defined.

(** X2.  At most N names are selected, and they are the greatest ones:
    a dated name of the listing that was not selected is not above any
    selected name. *)
Theorem selection_takes_the_greatest files (n : nat) :
  length (select_recent files (Z.of_nat n)) <= n
  /\ forall f g,
       In f (select_recent files (Z.of_nat n)) ->
       In g files ->
       dated_md_name g ->
       ~ In g (select_recent files (Z.of_nat n)) ->
       str_ltb f g = false.
Proof.
  split; [apply select_recent_length|].
  intros f g Hf Hg Hdated Hout. rewrite select_recent_firstn in Hf, Hout.
  set (sorted := rev (array_sort (List.filter is_memory_file files))) in *.
  assert (Hsorted : descending sorted)
    by apply rev_descending, array_sort_ascending.
  assert (Hin : In g sorted).
  { apply -> in_rev. apply (Permutation_in _ (Permutation_sym (array_sort_perm _))).
    apply filter_In. split; [exact Hg | now apply is_memory_file_spec]. }
  rewrite <- (firstn_skipn n sorted) in Hin, Hsorted.
  apply in_app_or in Hin as [Hin|Hin]; [contradiction|].
  unfold descending in Hsorted.
  eapply (StronglySorted_app_1_elem_of _ _ _ _ _ Hsorted); now apply list_elem_of_In.
Qed.

Lemma selection_takes_the_greatest_witness :
  str_ltb (lit "2024-02-10-c.md") (lit "2024-01-01-a.md") = false.
Proof.
  apply (selection_takes_the_greatest
           [lit "2024-01-01-a.md"; lit "2024-03-15-b.md"; lit "2024-02-10-c.md"] 2).
  - vm_compute. auto.
  - vm_compute. auto.
  - apply is_memory_file_spec. vm_compute. reflexivity.
  - vm_compute. intros [H|[H|[]]]; discriminate H.
Defined.

(** X3.  The recent memories are loaded all or not at all.  Either every
    selected name loaded, and there is one entry per name, in the order of
    the selection, whose content is what [readFile] returned for
    [path.join(memoryDir, filename)] and whose [date] is the first four
    code units of the name; or the listing failed, or selected nothing, or
    one selected name failed to load, and the result is empty. *)
Theorem recent_memories_all_or_nothing env memoryDir count :
  let recent := recent_memories_of env memoryDir count in
  (recent = []
   /\ ((exists e, fs_readdir env memoryDir = Throw e)
       \/ exists files,
            fs_readdir env memoryDir = Ret files
            /\ (select_recent files (default 3%Z count) = []
                \/ exists f e,
                     In f (select_recent files (default 3%Z count))
                     /\ load_entry env memoryDir f = Throw e)))
  \/ exists files,
       fs_readdir env memoryDir = Ret files
       /\ map filename recent = select_recent files (default 3%Z count)
       /\ Forall (fun m => exists p,
                    path_join env [memoryDir; filename m] = Ret p
                    /\ fs_readFile env p = Ret (content m)
                    /\ date m = firstn 4 (filename m)) recent.
Proof.
  intros recent. subst recent. unfold recent_memories_of.
  destruct (fs_readdir env memoryDir) as [files|e] eqn:Hdir; [|left; eauto].
  destruct (load_entries env memoryDir (select_recent files (default 3%Z count)))
    as [ms|e] eqn:Hload.
  - right. exists files. split; [reflexivity|].
    destruct (load_entries_ok env memoryDir _ ms Hload) as [Hnames Hdates].
    split; [exact Hnames|].
    pose proof (load_entries_read env memoryDir _ ms Hload) as Hread.
    rewrite List.Forall_forall in Hread, Hdates. apply List.Forall_forall.
    intros m Hm. destruct (Hread m Hm) as (p & Hp & Hc).
    exists p. split; [exact Hp|]. split; [exact Hc|].
    rewrite (Hdates m Hm). apply date_of_memory_file.
    apply (select_recent_kept files (default 3%Z count)).
    rewrite <- Hnames. now apply in_map.
  - left. split; [reflexivity|]. right. exists files. split; [reflexivity|].
    right. destruct (load_entries_throw_inv env memoryDir _ e Hload) as (f & e' & Hf & He).
    now exists f, e'.
Qed.

(** ** More on the assembled text *)

Section Shape.

Lemma join_snoc_blank sep l :
  l <> [] -> join sep (l ++ [[]]) = join sep l ++ sep.
Proof.
  induction l as [|x l IH]; [easy|]. intros _.
  destruct l as [|y l].
  - simpl. now rewrite app_nil_r.
  - change (join sep ((x :: y :: l) ++ [[]]))
      with (x ++ sep ++ join sep ((y :: l) ++ [[]])).
    rewrite IH by discriminate.
    change (join sep (x :: y :: l)) with (x ++ sep ++ join sep (y :: l)).
    now rewrite <- !app_assoc.
Qed.

Lemma framed_app l1 l2 :
  (l1 = [] \/ framed l1) -> (l2 = [] \/ framed l2) ->
  l1 ++ l2 = [] \/ framed (l1 ++ l2).
Proof.
  intros [-> | (t1 & r1 & ->)] [-> | (t2 & r2 & ->)]; simpl; auto; right.
  - now exists t2, r2.
  - rewrite app_nil_r. now exists t1, r1.
  - exists t1, (r1 ++ [[]] ++ (lit "## " ++ t2) :: r2).
    rewrite <- app_comm_cons. f_equal. rewrite <- !app_assoc. reflexivity.
Qed.

Lemma rendered_text_framed heading limit (src : option jsstring) title :
  lit heading = lit "## " ++ title ->
  rendered_text heading limit src = [] \/ framed (rendered_text heading limit src).
Proof.
  intros Hh. destruct src as [[|c s]|]; simpl; auto.
  right. unfold text_section. rewrite Hh.
  now exists title, [firstn limit (c :: s)].
Qed.

Lemma entries_end_blank ms :
  ms <> [] -> exists rest, concat (map entry_section ms) = rest ++ [[]].
Proof.
  induction ms as [|m ms IH]; [easy|]. intros _.
  destruct ms as [|m' ms].
  - simpl. now exists [lit "### " ++ filename m; firstn 500 (content m)].
  - destruct IH as [rest Hrest]; [discriminate|].
    change (concat (map entry_section (m :: m' :: ms)))
      with (entry_section m ++ concat (map entry_section (m' :: ms))).
    rewrite Hrest. exists (entry_section m ++ rest). now rewrite app_assoc.
Qed.

Lemma rendered_recent_framed ms :
  rendered_recent ms = [] \/ framed (rendered_recent ms).
Proof.
  destruct ms as [|m ms]; [now left | right].
  destruct (entries_end_blank (m :: ms)) as [rest Hrest]; [discriminate|].
  unfold rendered_recent, recent_section. rewrite Hrest.
  now exists (lit "Recent Conversations"), rest.
Qed.

Lemma build_context_parts_framed p a ms :
  build_context_parts p a ms = [] \/ framed (build_context_parts p a ms).
Proof.
  rewrite build_context_parts_layout.
  apply framed_app; [|apply framed_app].
  - now apply (rendered_text_framed _ _ _ (lit "User Profile (Jeeves)")).
  - now apply (rendered_text_framed _ _ _ (lit "Active Context")).
  - apply rendered_recent_framed.
Qed.

Lemma join_length_le sep (l : list jsstring) :
  length (join sep l) <= list_sum (map (fun x => length x + length sep) l).
Proof.
  induction l as [|x l IH]; [simpl; lia|].
  destruct l as [|y l]; [simpl; lia|].
  change (join sep (x :: y :: l)) with (x ++ sep ++ join sep (y :: l)).
  rewrite !length_app. cbn [map list_sum fold_right] in IH |- *. lia.
Qed.

Lemma entries_budget_bound ms :
  list_sum (map (fun x : jsstring => length x + 1) (concat (map entry_section ms)))
  <= entries_budget ms.
Proof.
  induction ms as [|m ms IH]; simpl; [lia|].
  pose proof (length_firstn 500 (content m)). lia.
Qed.

Lemma rendered_text_budget heading limit (src : option jsstring) :
  list_sum (map (fun x : jsstring => length x + 1) (rendered_text heading limit src))
  <= length (lit heading) + limit + 3.
Proof.
  destruct src as [[|c s]|]; simpl; try lia.
  pose proof (length_firstn limit (c :: s)) as H. simpl in H. lia.
Qed.

End Shape.

(** X4.  The assembled text is the empty string exactly when nothing was
    there to show: no profile text, no active-context text and no recent
    memory. *)
Theorem empty_context_iff
    (userProfile activeContext : option jsstring) (recentMemories : list MemoryEntry) :
  full_context userProfile activeContext recentMemories = []
  <-> truthy_text userProfile = false
      /\ truthy_text activeContext = false
      /\ recentMemories = [].
Proof.
  unfold full_context. split.
  - intros Hempty.
    destruct (build_context_parts_framed userProfile activeContext recentMemories)
      as [Hnil | (title & rest & Hparts)].
    + rewrite build_context_parts_layout in Hnil.
      apply app_eq_nil in Hnil as [Hp Hrest]. apply app_eq_nil in Hrest as [Ha Hr].
      repeat split.
      * destruct userProfile as [[|c s]|]; [reflexivity | discriminate Hp | reflexivity].
      * destruct activeContext as [[|c s]|]; [reflexivity | discriminate Ha | reflexivity].
      * destruct recentMemories; [reflexivity | discriminate Hr].
    + rewrite Hparts in Hempty. exfalso. revert Hempty.
      apply join_nonempty. discriminate.
  - intros (Hp & Ha & ->). rewrite build_context_parts_layout.
    destruct userProfile as [[|c s]|]; try discriminate Hp;
      destruct activeContext as [[|c' s']|]; try discriminate Ha; reflexivity.
Qed.

(** X5.  A text that is not empty opens with a ["## "] heading and closes
    with a line feed. *)
Theorem context_is_framed
    (userProfile activeContext : option jsstring) (recentMemories : list MemoryEntry) :
  full_context userProfile activeContext recentMemories <> [] ->
  exists body,
    full_context userProfile activeContext recentMemories
    = lit "## " ++ body ++ [10%N].
Proof.
  unfold full_context. intros Hne.
  destruct (build_context_parts_framed userProfile activeContext recentMemories)
    as [Hnil | (title & rest & Hparts)].
  - rewrite Hnil in Hne. now contradiction Hne.
  - rewrite Hparts.
    change ((lit "## " ++ title) :: rest ++ [[]])
      with (((lit "## " ++ title) :: rest) ++ [[]]).
    rewrite join_snoc_blank by discriminate.
    destruct rest as [|r rest].
    + exists title. cbn [join]. now rewrite <- app_assoc.
    + exists (title ++ [10%N] ++ join [10%N] (r :: rest)).
      change (join [10%N] ((lit "## " ++ title) :: r :: rest))
        with ((lit "## " ++ title) ++ [10%N] ++ join [10%N] (r :: rest)).
      now rewrite <- !app_assoc.
Qed.

Lemma context_is_framed_witness :
  exists body,
    full_context (Some (lit "likes tea")) None [] = lit "## " ++ body ++ [10%N].
Proof.
  apply (context_is_framed (Some (lit "likes tea")) None []).
  vm_compute. discriminate.
Defined.

(** X6.  The published text is bounded: at most 2071 code units for the
    three headings, the two texts and their separators, plus for each
    entry its file name and 507; and the handler loads at most three
    entries. *)
Theorem context_length_bound env workspaceDir memoryDir :
  length (memory_context_of env workspaceDir memoryDir)
  <= 2071 + entries_budget (recent_memories_of env memoryDir (Some 3%Z))
  /\ length (recent_memories_of env memoryDir (Some 3%Z)) <= 3.
Proof.
  split.
  - unfold memory_context_of, full_context.
    etransitivity; [apply join_length_le|].
    rewrite build_context_parts_layout, !map_app, !list_sum_app. simpl length.
    pose proof (rendered_text_budget "## User Profile (Jeeves)" 1000
                  (read_text_of env workspaceDir "jeeves-profile.md")) as Hp.
    pose proof (rendered_text_budget "## Active Context" 1000
                  (read_text_of env workspaceDir "active-context.md")) as Ha.
    change (length (lit "## User Profile (Jeeves)")) with 24 in Hp.
    change (length (lit "## Active Context")) with 17 in Ha.
    destruct (recent_memories_of env memoryDir (Some 3%Z)) as [|m ms] eqn:Hms.
    + simpl. unfold jsstring in *. lia.
    + unfold rendered_recent, recent_section.
      pose proof (entries_budget_bound (m :: ms)) as He.
      unfold list_sum in *. cbn [map fold_right] in He |- *.
      change (length (lit "## Recent Conversations")) with 23.
      unfold jsstring in *. lia.
  - destruct (recent_memories_cases env memoryDir (Some 3%Z)) as [-> | (files & _ & H)].
    + simpl. lia.
    + apply load_entries_ok in H as [Hnames _].
      rewrite <- (length_map filename), Hnames.
      apply (select_recent_length files 3).
Qed.

(** ** More on publishing *)

Section Publishing.
Variable env : Env.

Lemma published_other_key full (o : gmap string Value) (k : string) :
  k <> "memoryContext" -> k <> "hasMemory" -> published full o !! k = o !! k.
Proof.
  intros Hm Hh. unfold published.
  rewrite lookup_insert_ne by congruence. now rewrite lookup_insert_ne by congruence.
Qed.

Lemma prop_of_published h c full l (k : string) :
  k <> "memoryContext" -> k <> "hasMemory" ->
  prop_of (<[c := published full (object_at h c)]> h) l k = prop_of h l k.
Proof.
  intros Hm Hh. unfold prop_of.
  destruct (decide (c = l)) as [<- | Hne].
  - unfold object_at at 1. rewrite lookup_insert_eq.
    cbv beta iota delta [default from_option id].
    now rewrite published_other_key.
  - unfold object_at. now rewrite lookup_insert_ne.
Qed.


End Publishing.

(** X7.  Publishing touches two properties of one object: every other
    object is as it was, and so is every other property of the context
    object, its [cfg] among them. *)
Theorem publishing_preserves_the_rest env event w c workspaceDir memoryDir :
  admitted (heap w) event ->
  prop_of (heap w) event "context" = VRef c ->
  workspace_of env (prop_of (heap w) c "cfg") (prop_of (heap w) event "sessionKey")
  = Ret workspaceDir ->
  path_join env [workspaceDir; lit "memory"] = Ret memoryDir ->
  (forall l, l <> c -> heap (final_world env event w) !! l = heap w !! l)
  /\ (forall k : string,
        k <> "memoryContext" -> k <> "hasMemory" ->
        prop_of (heap (final_world env event w)) c k = prop_of (heap w) c k)
  /\ dom (heap (final_world env event w)) = {[c]} ∪ dom (heap w).
Proof.
  intros Hadm Hctx Hws Hmd. unfold final_world.
  rewrite (handler_run_exact env event w c workspaceDir memoryDir Hadm Hctx Hws Hmd).
  cbn [snd heap]. split; [|split].
  - intros l Hl. now apply lookup_insert_ne.
  - intros k Hm Hh. now apply prop_of_published.
  - apply dom_insert_L.
Qed.

Lemma publishing_preserves_the_rest_witness :
  heap (final_world full_disk 1%positive
          (sample_world "agent" "bootstrap" (VRef 2%positive))) !! 1%positive
  = Some (event_object "agent" "bootstrap" (VRef 2%positive)).
Proof.
  destruct (publishing_preserves_the_rest full_disk 1%positive
              (sample_world "agent" "bootstrap" (VRef 2%positive)) 2%positive
              (lit "/state/workspace") (lit "/state/workspace/memory"))
    as [Hother _].
  - split; vm_compute; reflexivity.
  - vm_compute. reflexivity.
  - vm_compute. reflexivity.
  - vm_compute. reflexivity.
  - rewrite Hother by discriminate. vm_compute. reflexivity.
Defined.



(** ** What a run logs and reads *)

Section Traces.
Variable env : Env.

Lemma entries_calls_reads memoryDir files :
  Forall is_read (entries_calls env memoryDir files)
  /\ length (entries_calls env memoryDir files) <= length files
  /\ forall p, In (ReadFile p) (entries_calls env memoryDir files) ->
       exists f, In f files /\ path_join env [memoryDir; f] = Ret p.
Proof.
  induction files as [|f files (IHr & IHl & IHp)]; simpl.
  - split; [constructor|]. split; [lia | easy].
  - destruct (path_join env [memoryDir; f]) as [p|e] eqn:Hp.
    + destruct (fs_readFile env p) as [c|e].
      * split; [constructor; [exact I | exact IHr]|]. split; [simpl; lia|].
        intros q [Hq|Hq].
        -- injection Hq as <-. exists f. auto.
        -- destruct (IHp q Hq) as (g & Hg & Hpath). exists g. auto.
      * split; [repeat constructor|]. split; [simpl; lia|].
        intros q [Hq|[]]. injection Hq as <-. exists f. auto.
    + split; [constructor|]. split; [simpl; lia | easy].
Qed.

Lemma text_calls_reads workspaceDir (name : string) :
  Forall is_read (text_calls env workspaceDir name)
  /\ length (text_calls env workspaceDir name) <= 1
  /\ forall p, In (ReadFile p) (text_calls env workspaceDir name) <->
       path_join env [workspaceDir; lit "memory"; lit name] = Ret p.
Proof.
  unfold text_calls.
  destruct (path_join env [workspaceDir; lit "memory"; lit name]) as [q|e].
  - split; [repeat constructor|]. split; [simpl; lia|].
    intros p. simpl. split.
    + intros [H|[]]. now injection H as <-.
    + intros H. injection H as <-. now left.
  - split; [constructor|]. split; [simpl; lia|]. intros p. simpl. split; easy.
Qed.

End Traces.

(** X9.  A run that publishes adds three records to the log and no error:
    the start, a summary, and a preview.  The summary counts the entries
    that are in the text, its [hasProfile] and [hasContext] are true
    exactly when the text has the corresponding section, and the preview
    is the first 200 code units of the published text. *)
Theorem success_is_logged env event w c workspaceDir memoryDir :
  admitted (heap w) event ->
  prop_of (heap w) event "context" = VRef c ->
  workspace_of env (prop_of (heap w) c "cfg") (prop_of (heap w) event "sessionKey")
  = Ret workspaceDir ->
  path_join env [workspaceDir; lit "memory"] = Ret memoryDir ->
  exists (loaded : nat) (hasProfile hasContext : bool) (preview : jsstring),
    logs (final_world env event w)
    = logs w
      ++ [record Debug "Session bootstrap: Loading memory context" [];
          record Info "Session bootstrapped with memory context"
            [("memoriesLoaded", VNum (Z.of_nat loaded));
             ("hasProfile", VBool hasProfile);
             ("hasContext", VBool hasContext)];
          record Debug "Memory context preview" [("preview", VStr preview)]]
    /\ loaded = length (recent_memories_of env memoryDir (Some 3%Z))
    /\ (hasProfile = true
        <-> rendered_text "## User Profile (Jeeves)" 1000
              (read_text_of env workspaceDir "jeeves-profile.md") <> [])
    /\ (hasContext = true
        <-> rendered_text "## Active Context" 1000
              (read_text_of env workspaceDir "active-context.md") <> [])
    /\ prop_of (heap (final_world env event w)) c "memoryContext"
       = VStr (memory_context_of env workspaceDir memoryDir)
    /\ preview = firstn 200 (memory_context_of env workspaceDir memoryDir).
Proof.
  intros Hadm Hctx Hws Hmd. unfold final_world.
  rewrite (handler_run_exact env event w c workspaceDir memoryDir Hadm Hctx Hws Hmd).
  cbn [snd heap logs]. do 4 eexists. split; [reflexivity|].
  split; [reflexivity|].
  assert (Hflag : forall heading (src : option jsstring),
             truthy_text src = true <-> rendered_text heading 1000 src <> []).
  { intros heading [[|x s]|]; simpl; split; intros H;
      first [discriminate H | now contradiction H | reflexivity | discriminate]. }
  split; [apply Hflag|]. split; [apply Hflag|].
  split; [apply published_memoryContext | reflexivity].
Qed.

Lemma success_is_logged_witness :
  exists hasProfile hasContext preview,
    logs (final_world blank_profile_disk 1%positive
            (sample_world "agent" "bootstrap" (VRef 2%positive)))
    = [record Debug "Session bootstrap: Loading memory context" [];
       record Info "Session bootstrapped with memory context"
         [("memoriesLoaded", VNum 0);
          ("hasProfile", VBool hasProfile);
          ("hasContext", VBool hasContext)];
       record Debug "Memory context preview" [("preview", VStr preview)]]
    /\ hasProfile = false /\ hasContext = true.
Proof.
  destruct (success_is_logged blank_profile_disk 1%positive
              (sample_world "agent" "bootstrap" (VRef 2%positive)) 2%positive
              (lit "/state/workspace") (lit "/state/workspace/memory"))
    as (n & hp & hc & pv & Hlogs & -> & Hp & Hc & _).
  - split; vm_compute; reflexivity.
  - vm_compute. reflexivity.
  - vm_compute. reflexivity.
  - vm_compute. reflexivity.
  - exists hp, hc, pv. split; [exact Hlogs|]. split.
    + destruct hp; [|reflexivity]. exfalso.
      apply (proj1 Hp eq_refl). vm_compute. reflexivity.
    + apply Hc. vm_compute. discriminate.
Defined.



(** X11.  A run that publishes calls the file system at most six times:
    one [readdir] of the memory directory, first, then reads only.  What
    it reads is a dated ".md" name of the listing joined to the memory
    directory, the profile or the active context, nothing else; and the
    profile and the active context are read whatever happened to the
    recent memories. *)
Theorem reads_are_bounded_and_scoped env event w c workspaceDir memoryDir :
  admitted (heap w) event ->
  prop_of (heap w) event "context" = VRef c ->
  workspace_of env (prop_of (heap w) c "cfg") (prop_of (heap w) event "sessionKey")
  = Ret workspaceDir ->
  path_join env [workspaceDir; lit "memory"] = Ret memoryDir ->
  exists reads,
    fs_calls (final_world env event w) = fs_calls w ++ Readdir memoryDir :: reads
    /\ Forall is_read reads
    /\ length reads <= 5
    /\ (forall p, In (ReadFile p) reads ->
          (exists files f,
              fs_readdir env memoryDir = Ret files
              /\ In f files /\ dated_md_name f
              /\ path_join env [memoryDir; f] = Ret p)
          \/ path_join env [workspaceDir; lit "memory"; lit "jeeves-profile.md"] = Ret p
          \/ path_join env [workspaceDir; lit "memory"; lit "active-context.md"] = Ret p)
    /\ (forall p,
          path_join env [workspaceDir; lit "memory"; lit "jeeves-profile.md"] = Ret p
          \/ path_join env [workspaceDir; lit "memory"; lit "active-context.md"] = Ret p ->
          In (ReadFile p) reads).
Proof.
  intros Hadm Hctx Hws Hmd. unfold final_world.
  rewrite (handler_run_exact env event w c workspaceDir memoryDir Hadm Hctx Hws Hmd).
  cbn [snd fs_calls]. unfold handler_calls, recent_calls.
  destruct (text_calls_reads env workspaceDir "jeeves-profile.md") as (Hpr & Hpl & Hpp).
  destruct (text_calls_reads env workspaceDir "active-context.md") as (Har & Hal & Hap).
  eexists. split; [reflexivity|].
  destruct (fs_readdir env memoryDir) as [files|e] eqn:Hdir.
  - destruct (entries_calls_reads env memoryDir (select_recent files (default 3%Z (Some 3%Z))))
      as (Her & Hel & Hep).
    pose proof (select_recent_length files 3) as Hlen.
    cbn [default from_option id] in *.
    split; [repeat (apply Forall_app; split); assumption|].
    split; [rewrite !length_app; change (Z.of_nat 3) with 3%Z in Hlen; lia|].
    split.
    + intros p Hin. apply in_app_or in Hin as [Hin|Hin].
      * left. destruct (Hep p Hin) as (f & Hf & Hpath).
        apply select_recent_kept in Hf as [Hf Hkept].
        exists files, f. split; [reflexivity|]. split; [exact Hf|].
        split; [now apply is_memory_file_spec | exact Hpath].
      * right. apply in_app_or in Hin as [Hin|Hin]; [left; now apply Hpp | right; now apply Hap].
    + intros p [Hp|Hp]; apply in_or_app; right; apply in_or_app;
        [left; now apply Hpp | right; now apply Hap].
  - split; [repeat (apply Forall_app; split); first [assumption | constructor]|].
    split; [rewrite !length_app; simpl; lia|].
    split.
    + intros p Hin. right. simpl in Hin.
      apply in_app_or in Hin as [Hin|Hin]; [left; now apply Hpp | right; now apply Hap].
    + intros p [Hp|Hp]; simpl; apply in_or_app;
        [left; now apply Hpp | right; now apply Hap].
Qed.

Lemma reads_are_bounded_and_scoped_witness :
  exists reads,
    fs_calls (final_world corrupt_disk 1%positive
                (sample_world "agent" "bootstrap" (VRef 2%positive)))
    = Readdir (lit "/state/workspace/memory") :: reads
    /\ length reads <= 5
    /\ In (ReadFile (memory_path "jeeves-profile.md")) reads.
Proof.
  destruct (reads_are_bounded_and_scoped corrupt_disk 1%positive
              (sample_world "agent" "bootstrap" (VRef 2%positive)) 2%positive
              (lit "/state/workspace") (lit "/state/workspace/memory"))
    as (reads & Hcalls & _ & Hlen & _ & Halways).
  - split; vm_compute; reflexivity.
  - vm_compute. reflexivity.
  - vm_compute. reflexivity.
  - vm_compute. reflexivity.
  - exists reads. split; [exact Hcalls|]. split; [exact Hlen|].
    apply Halways. left. vm_compute. reflexivity.
Defined.
